(** * MGCE Platform: the microgrid analysis chain of [backend/main.py]

    A shallow embedding of the calculation engines behind [POST /analyze]
    ([LoadAnalyzer], [SystemSizer], [CostEstimator], [FinancialAnalyzer],
    [ReliabilityAnalyzer], [generate_recommendations]) and the properties
    the specification states about them.

    Numbers.  Python's [float] is modelled twice.  The chain and the
    theorems about it compute on the canonical rationals [Qc]: every
    arithmetic step is exact, [round(x, n)] is rounding to [n] decimals
    with ties to even, and the only arithmetic exception is
    [ZeroDivisionError]; the guards, the rounding steps and the order of
    the computations are those of the source.  The module [Double]
    transcribes the same lines on IEEE 754 binary64 numbers and runs a
    request as the interpreter does.

    The two differ in two ways.  A double is rounded at every step: a sum
    that is exact on rationals may be off in its last binary digit, and a
    decimal tie of the exact model need not be one in binary, so that a
    reported figure may differ in its last decimal (the total capital cost
    of the scenario is 3269488.72 on rationals and 3269488.73 on doubles).
    And a double overflows: for a peak demand near the largest double the
    products of the chain are infinite, and [inf - inf], [inf / inf] and
    [0 * inf] are not-a-number, which fails every comparison.  The
    theorems that bound the reported figures are therefore stated for peak
    demands of at most 10^9 kW ([moderate_peak]), far from overflow and
    where a double still resolves a hundredth with room to spare, and with
    bounds that leave that room.  What happens beyond is shown on
    [Double], and a grid of requests over the range is run on [Double]
    against the same bounds ([grid_within_bounds]).

    Divisions.  A division whose denominator depends on the request is
    written [a /! b] and raises [ZeroDivisionError] when [b] is zero, as in
    Python.  A division by a literal (or by a value computed from literals
    only, such as [0.269] or [(1 + 0.06) ** year]) is written with the total
    [/] of [Qc]. *)

From Stdlib Require Import QArith Qcanon Qround Lqa ZArith SpecFloat.
From stdpp Require Import base decidable option list gmap strings numbers.

Open Scope Qc_scope.

(** ** Numbers *)

(** A numeric literal of the source, [lit 0.269] for [0.269]. *)
Definition lit (x : Q) : Qc := Q2Qc x.
Arguments lit x%_Q.

(** Python's [min(a, b)] and [max(a, b)]: the first argument wins a tie. *)
Definition py_min (a b : Qc) : Qc := if decide (b < a) then b else a.
Definition py_max (a b : Qc) : Qc := if decide (a < b) then b else a.

(** [max(a, b, c)] scans its arguments from left to right. *)
Definition py_max3 (a b c : Qc) : Qc := py_max (py_max a b) c.

(** Nearest integer, ties to the even neighbour. *)
Definition round_half_even (y : Q) : Z :=
  let fl := Qfloor y in
  match (y - inject_Z fl ?= 1 # 2)%Q with
  | Lt => fl
  | Gt => (fl + 1)%Z
  | Eq => if Z.even fl then fl else (fl + 1)%Z
  end.

(** Python's [round(x, ndigits)]. *)
Definition py_round (x : Qc) (ndigits : nat) : Qc :=
  let scale := inject_Z (10 ^ Z.of_nat ndigits) in
  Q2Qc (inject_Z (round_half_even (x * scale)) / scale).

(** [x ** n] for a non-negative integer exponent. *)
Definition py_pow (x : Qc) (n : nat) : Qc := Qcpower x n.

(** ** Exceptions *)

(** [HTTPException(status_code, detail=str(e))]: the model keeps the
    exception [e] that was caught in place of its text. *)
Inductive exn : Type :=
| ZeroDivisionError
| HTTPException (status_code : Z) (detail : exn).

Inductive result (A : Type) : Type :=
| Ok (a : A)
| Raise (e : exn).
Arguments Ok {A} a.
Arguments Raise {A} e.

Global Instance result_ret : MRet result := fun A a => Ok a.
Global Instance result_bind : MBind result := fun A B k m =>
  match m with
  | Ok a => k a
  | Raise e => Raise e
  end.

(** [a / b] on floats. *)
Definition pydiv (a b : Qc) : result Qc :=
  if decide (b = 0) then Raise ZeroDivisionError else Ok (a / b).
Infix "/!" := pydiv (at level 40, left associativity) : Qc_scope.

(** [try: body except Exception as e: raise HTTPException(500, str(e))]. *)
Definition try_except_500 {A} (body : result A) : result A :=
  match body with
  | Ok a => Ok a
  | Raise e => Raise (HTTPException 500 e)
  end.

(** ** Pydantic models and the load-analysis dict *)

Module FacilityInput.
Record t : Type := mk {
  facility_name : string;
  facility_type : string;
  location : string;
  peak_demand_kw : Qc;
  annual_consumption_kwh : Qc;
  critical_load_percent : Qc;
  essential_load_percent : Qc;
  backup_duration_hours : Qc;
  grid_connected : bool;
  include_solar : bool;
  include_battery : bool;
  include_generator : bool
}.

(** The [Field] constraints ([gt=0], [ge=0], [le=100]) that pydantic
    checks when the request body is parsed. *)
Definition valid (f : t) : Prop :=
  0 < peak_demand_kw f ∧
  0 < annual_consumption_kwh f ∧
  (0 ≤ critical_load_percent f ∧ critical_load_percent f ≤ lit 100) ∧
  (0 ≤ essential_load_percent f ∧ essential_load_percent f ≤ lit 100) ∧
  0 < backup_duration_hours f.

Global Instance valid_dec f : Decision (valid f).
Proof. unfold valid. apply _. Defined.
End FacilityInput.

(** The dict returned by [LoadAnalyzer.analyze_load], one field per key. *)
Module LoadAnalysis.
Record t : Type := mk {
  peak_demand_kw : Qc;
  average_demand_kw : Qc;
  critical_load_kw : Qc;
  essential_load_kw : Qc;
  non_critical_load_kw : Qc;
  backup_load_kw : Qc;
  load_factor : Qc;
  annual_consumption_kwh : Qc
}.
End LoadAnalysis.

Module MicrogridDesign.
Record t : Type := mk {
  solar_pv_kw : Qc;
  battery_kw : Qc;
  battery_kwh : Qc;
  generator_kw : Qc;
  inverter_kw : Qc;
  total_generation_kw : Qc;
  renewable_fraction : Qc;
  critical_load_coverage : Qc
}.
End MicrogridDesign.

Module CostEstimate.
Record t : Type := mk {
  solar_pv_cost : Qc;
  battery_cost : Qc;
  generator_cost : Qc;
  inverter_cost : Qc;
  bos_cost : Qc;
  installation_cost : Qc;
  total_capital_cost : Qc;
  annual_om_cost : Qc;
  cost_per_kw : Qc
}.
End CostEstimate.

Module FinancialAnalysis.
Record t : Type := mk {
  lcoe : Qc;
  simple_payback_years : Qc;
  npv : Qc;
  irr : Qc;
  annual_savings : Qc;
  federal_itc : Qc;
  total_incentives : Qc;
  net_cost_after_incentives : Qc
}.
End FinancialAnalysis.

Module ReliabilityAssessment.
Record t : Type := mk {
  backup_duration_hours : Qc;
  critical_load_coverage_percent : Qc;
  expected_outage_hours_per_year : Qc;
  avoided_outage_cost : Qc;
  reliability_improvement_percent : Qc
}.
End ReliabilityAssessment.

(** ** LoadAnalyzer *)

Definition analyze_load (facility : FacilityInput.t) : result LoadAnalysis.t :=
  let peak := FacilityInput.peak_demand_kw facility in
  let annual := FacilityInput.annual_consumption_kwh facility in
  let critical_load_kw := peak * (FacilityInput.critical_load_percent facility / lit 100) in
  let essential_load_kw := peak * (FacilityInput.essential_load_percent facility / lit 100) in
  let non_critical_load_kw := peak - critical_load_kw - essential_load_kw in
  let hours_per_year := lit 8760 in
  load_factor ← annual /! (peak * hours_per_year);
  let avg_demand_kw := annual / hours_per_year in
  let backup_load_kw := critical_load_kw + essential_load_kw in
  mret {|
    LoadAnalysis.peak_demand_kw := peak;
    LoadAnalysis.average_demand_kw := py_round avg_demand_kw 2;
    LoadAnalysis.critical_load_kw := py_round critical_load_kw 2;
    LoadAnalysis.essential_load_kw := py_round essential_load_kw 2;
    LoadAnalysis.non_critical_load_kw := py_round non_critical_load_kw 2;
    LoadAnalysis.backup_load_kw := py_round backup_load_kw 2;
    LoadAnalysis.load_factor := py_round load_factor 3;
    LoadAnalysis.annual_consumption_kwh := annual
  |}.

(** ** SystemSizer *)

Module SystemSizer.
Definition solar_capacity_factor : Qc := lit 0.269.
Definition battery_round_trip_efficiency : Qc := lit 0.85.
Definition generator_efficiency : Qc := lit 0.35.
End SystemSizer.

Definition size_system (facility : FacilityInput.t) (load_analysis : LoadAnalysis.t)
  : result MicrogridDesign.t :=
  let backup_load_kw := LoadAnalysis.backup_load_kw load_analysis in
  let critical_load_kw := LoadAnalysis.critical_load_kw load_analysis in
  let solar_pv_kw :=
    if FacilityInput.include_solar facility then
      let solar_pv_kw :=
        py_round (LoadAnalysis.average_demand_kw load_analysis * lit 1.3
                  / SystemSizer.solar_capacity_factor) 1 in
      py_min solar_pv_kw (FacilityInput.peak_demand_kw facility * lit 1.5)
    else 0 in
  let '(battery_kw, battery_kwh) :=
    if FacilityInput.include_battery facility then
      let battery_hours := py_min (lit 4) (FacilityInput.backup_duration_hours facility) in
      let battery_kwh :=
        py_round (backup_load_kw * battery_hours
                  / SystemSizer.battery_round_trip_efficiency) 1 in
      let battery_kw := py_round (backup_load_kw * lit 1.1) 1 in
      (battery_kw, battery_kwh)
    else (0, 0) in
  let generator_kw :=
    if FacilityInput.include_generator facility then
      py_round (backup_load_kw * lit 1.2) 1
    else 0 in
  let inverter_kw := py_round (py_max3 solar_pv_kw battery_kw backup_load_kw * lit 1.1) 1 in
  let total_generation_kw := solar_pv_kw + generator_kw in
  renewable_fraction ←
    (if decide (0 < total_generation_kw) then
       q ← solar_pv_kw /! total_generation_kw; mret (py_round q 3)
     else mret 0);
  critical_load_coverage ←
    (if decide (0 < critical_load_kw) then
       q ← (battery_kw + generator_kw) /! critical_load_kw; mret (py_min 1 q)
     else mret 1);
  mret {|
    MicrogridDesign.solar_pv_kw := solar_pv_kw;
    MicrogridDesign.battery_kw := battery_kw;
    MicrogridDesign.battery_kwh := battery_kwh;
    MicrogridDesign.generator_kw := generator_kw;
    MicrogridDesign.inverter_kw := inverter_kw;
    MicrogridDesign.total_generation_kw := py_round total_generation_kw 1;
    MicrogridDesign.renewable_fraction := py_round renewable_fraction 3;
    MicrogridDesign.critical_load_coverage := py_round critical_load_coverage 3
  |}.

(** ** CostEstimator *)

(** The [default_costs] table of [CostEstimator.load_cost_data]. *)
Module default_costs.
Definition solar_pv_per_kw : Qc := lit 1551.
Definition battery_per_kwh : Qc := lit 485.
Definition battery_per_kw : Qc := lit 1938.
Definition generator_per_kw : Qc := lit 800.
Definition inverter_per_kw : Qc := lit 150.
Definition bos_percent : Qc := lit 0.15.
Definition installation_percent : Qc := lit 0.20.
Definition om_percent : Qc := lit 0.015.
End default_costs.

Definition estimate_costs (design : MicrogridDesign.t) : result CostEstimate.t :=
  let solar_pv_cost := MicrogridDesign.solar_pv_kw design * default_costs.solar_pv_per_kw in
  let battery_cost := MicrogridDesign.battery_kwh design * default_costs.battery_per_kwh in
  let generator_cost := MicrogridDesign.generator_kw design * default_costs.generator_per_kw in
  let inverter_cost := MicrogridDesign.inverter_kw design * default_costs.inverter_per_kw in
  let equipment_cost := solar_pv_cost + battery_cost + generator_cost + inverter_cost in
  let bos_cost := equipment_cost * default_costs.bos_percent in
  let installation_cost := equipment_cost * default_costs.installation_percent in
  let total_capital_cost := equipment_cost + bos_cost + installation_cost in
  let annual_om_cost := total_capital_cost * default_costs.om_percent in
  let total_capacity := MicrogridDesign.solar_pv_kw design + MicrogridDesign.generator_kw design in
  cost_per_kw ←
    (if decide (0 < total_capacity) then total_capital_cost /! total_capacity else mret 0);
  mret {|
    CostEstimate.solar_pv_cost := py_round solar_pv_cost 2;
    CostEstimate.battery_cost := py_round battery_cost 2;
    CostEstimate.generator_cost := py_round generator_cost 2;
    CostEstimate.inverter_cost := py_round inverter_cost 2;
    CostEstimate.bos_cost := py_round bos_cost 2;
    CostEstimate.installation_cost := py_round installation_cost 2;
    CostEstimate.total_capital_cost := py_round total_capital_cost 2;
    CostEstimate.annual_om_cost := py_round annual_om_cost 2;
    CostEstimate.cost_per_kw := py_round cost_per_kw 2
  |}.

(** The local variable [equipment_cost] of [estimate_costs] as a function of
    the design. *)
Definition equipment_cost (d : MicrogridDesign.t) : Qc :=
  MicrogridDesign.solar_pv_kw d * default_costs.solar_pv_per_kw
  + MicrogridDesign.battery_kwh d * default_costs.battery_per_kwh
  + MicrogridDesign.generator_kw d * default_costs.generator_per_kw
  + MicrogridDesign.inverter_kw d * default_costs.inverter_per_kw.

(** ** FinancialAnalyzer *)

Module FinancialAnalyzer.
(** [default_params], [tou_rates] and [la_incentives], the entries the
    analysis reads. *)
Definition federal_itc_rate : Qc := lit 0.30.
Definition discount_rate : Qc := lit 0.06.
Definition electricity_rate : Qc := lit 0.0945.
Definition electricity_escalation : Qc := lit 0.02.
Definition project_lifetime : nat := 25.

Definition summer_on_peak : Qc := lit 0.02554.
Definition summer_off_peak : Qc := lit 0.00607.
Definition winter_on_peak : Qc := lit 0.00746.
Definition winter_off_peak : Qc := lit 0.00607.
Definition summer_demand : Qc := lit 16.13.
Definition winter_demand : Qc := lit 14.50.
Definition export_credit : Qc := lit 0.0259.
Definition peak_days_per_month : Qc := lit 22.

Definition interconnection_fee_commercial : Qc := lit 75.
Definition permit_fee_min : Qc := lit 50.
Definition permit_fee_max : Qc := lit 500.

Definition calculate_arbitrage_savings (design : MicrogridDesign.t) : Qc :=
  if decide (MicrogridDesign.battery_kwh design ≤ 0) then 0
  else
    let summer_spread := summer_on_peak - summer_off_peak in
    let battery_efficiency := lit 0.85 in
    let summer_cycles := peak_days_per_month * lit 6 in
    let summer_arbitrage :=
      MicrogridDesign.battery_kwh design * summer_spread * battery_efficiency * summer_cycles in
    let winter_spread := winter_on_peak - winter_off_peak in
    let winter_cycles := peak_days_per_month * lit 6 in
    let winter_arbitrage :=
      MicrogridDesign.battery_kwh design * winter_spread * battery_efficiency * winter_cycles in
    summer_arbitrage + winter_arbitrage.

Definition calculate_demand_charge_savings (design : MicrogridDesign.t) : Qc :=
  if decide (MicrogridDesign.battery_kw design ≤ 0) then 0
  else
    let peak_reduction_kw := MicrogridDesign.battery_kw design * lit 0.8 in
    let summer_savings := peak_reduction_kw * summer_demand * lit 6 in
    let winter_savings := peak_reduction_kw * winter_demand * lit 6 in
    summer_savings + winter_savings.

(** The local variables of [analyze_financials] that the properties
    below speak about, each under its name in the source. *)
Definition federal_itc (costs : CostEstimate.t) : Qc :=
  let eligible_cost := CostEstimate.solar_pv_cost costs + CostEstimate.battery_cost costs in
  eligible_cost * federal_itc_rate.

Definition net_cost (costs : CostEstimate.t) : Qc :=
  let interconnection_cost := interconnection_fee_commercial in
  let permit_cost := (permit_fee_min + permit_fee_max) / lit 2 in
  let total_incentives := federal_itc costs in
  CostEstimate.total_capital_cost costs - total_incentives + interconnection_cost + permit_cost.

Definition solar_production_kwh (design : MicrogridDesign.t) : Qc :=
  MicrogridDesign.solar_pv_kw design * lit 8760 * lit 0.269.

Definition annual_savings (design : MicrogridDesign.t) : Qc :=
  let self_consumption_rate := lit 0.80 in
  let self_consumption_savings :=
    solar_production_kwh design * self_consumption_rate * electricity_rate in
  let export_kwh := solar_production_kwh design * (1 - self_consumption_rate) in
  let export_savings := export_kwh * export_credit in
  let arbitrage_savings := calculate_arbitrage_savings design in
  let demand_savings := calculate_demand_charge_savings design in
  self_consumption_savings + export_savings + arbitrage_savings + demand_savings.

Definition net_annual_savings (design : MicrogridDesign.t) (costs : CostEstimate.t) : Qc :=
  annual_savings design - CostEstimate.annual_om_cost costs.

(** [for year in range(1, lifetime + 1): acc += term(year)]. *)
Definition sum_over_years (lifetime : nat) (term : nat → Qc) (start : Qc) : Qc :=
  fold_left (fun acc year => acc + term year) (seq 1 lifetime) start.

Definition analyze_financials (facility : FacilityInput.t) (design : MicrogridDesign.t)
    (costs : CostEstimate.t) : result FinancialAnalysis.t :=
  let federal_itc := federal_itc costs in
  let total_incentives := federal_itc in
  let net_cost := net_cost costs in
  let solar_production_kwh := solar_production_kwh design in
  let annual_savings := annual_savings design in
  let net_annual_savings := net_annual_savings design costs in
  simple_payback ←
    (if decide (0 < net_annual_savings) then net_cost /! net_annual_savings
     else mret (lit 999));
  let lifetime := project_lifetime in
  let total_energy := solar_production_kwh * lit (inject_Z (Z.of_nat lifetime)) in
  let npv_costs :=
    sum_over_years lifetime
      (fun year => CostEstimate.annual_om_cost costs / py_pow (1 + discount_rate) year)
      net_cost in
  lcoe ← (if decide (0 < total_energy) then npv_costs /! total_energy else mret 0);
  let npv :=
    sum_over_years lifetime
      (fun year =>
         let annual_benefit := net_annual_savings * py_pow (1 + electricity_escalation) year in
         annual_benefit / py_pow (1 + discount_rate) year)
      (- net_cost) in
  irr ← (if decide (0 < net_cost) then net_annual_savings /! net_cost else mret 0);
  mret {|
    FinancialAnalysis.lcoe := py_round lcoe 4;
    FinancialAnalysis.simple_payback_years := py_round simple_payback 1;
    FinancialAnalysis.npv := py_round npv 2;
    FinancialAnalysis.irr := py_round (irr * lit 100) 2;
    FinancialAnalysis.annual_savings := py_round annual_savings 2;
    FinancialAnalysis.federal_itc := py_round federal_itc 2;
    FinancialAnalysis.total_incentives := py_round total_incentives 2;
    FinancialAnalysis.net_cost_after_incentives := py_round net_cost 2
  |}.
End FinancialAnalyzer.

(** ** ReliabilityAnalyzer *)

(** [str.lower()] on the ASCII letters. *)
Definition ascii_lower (c : Ascii.ascii) : Ascii.ascii :=
  let n := Ascii.N_of_ascii c in
  if ((65 <=? n) && (n <=? 90))%N then Ascii.ascii_of_N (n + 32) else c.

Fixpoint lower (s : string) : string :=
  match s with
  | EmptyString => EmptyString
  | String c rest => String (ascii_lower c) (lower rest)
  end.

Module ReliabilityAnalyzer.
(** [la_metrics['saidi_with_med']], in minutes per year. *)
Definition saidi_with_med : Qc := lit 652.5.

(** Interruption cost per kWh by facility type. *)
Definition interruption_costs : gmap string Qc :=
  <["commercial" := lit 25]> (<["industrial" := lit 15]>
    (<["residential" := lit 5]> (<["hospital" := lit 100]> ∅))).

(** [interruption_costs.get(facility_type, 25.0)]. *)
Definition cost_per_kwh (facility : FacilityInput.t) : Qc :=
  let facility_type := lower (FacilityInput.facility_type facility) in
  default (lit 25) (interruption_costs !! facility_type).

Definition expected_outage_hours : Qc := saidi_with_med / lit 60.

Definition battery_hours (design : MicrogridDesign.t) (load_analysis : LoadAnalysis.t)
  : result Qc :=
  if decide (0 < LoadAnalysis.backup_load_kw load_analysis) then
    MicrogridDesign.battery_kwh design /! LoadAnalysis.backup_load_kw load_analysis
  else mret 0.

Definition generator_hours (design : MicrogridDesign.t) : Qc :=
  if decide (0 < MicrogridDesign.generator_kw design) then lit 72 else 0.

Definition total_backup_hours (design : MicrogridDesign.t) (load_analysis : LoadAnalysis.t)
  : result Qc :=
  battery_hours ← battery_hours design load_analysis;
  mret (battery_hours + generator_hours design).

(** The value of [reliability_improvement] after the [if]/[else]. *)
Definition reliability_improvement (total_backup_hours : Qc) : Qc :=
  if decide (expected_outage_hours ≤ total_backup_hours) then lit 95
  else (total_backup_hours / expected_outage_hours) * lit 100.

Definition assess_reliability (facility : FacilityInput.t) (design : MicrogridDesign.t)
    (load_analysis : LoadAnalysis.t) : result ReliabilityAssessment.t :=
  total_backup_hours ← total_backup_hours design load_analysis;
  let critical_coverage := MicrogridDesign.critical_load_coverage design * lit 100 in
  let cost_per_kwh := cost_per_kwh facility in
  let avoided_energy := LoadAnalysis.critical_load_kw load_analysis * expected_outage_hours in
  let avoided_outage_cost := avoided_energy * cost_per_kwh * (critical_coverage / lit 100) in
  let reliability_improvement := reliability_improvement total_backup_hours in
  mret {|
    ReliabilityAssessment.backup_duration_hours := py_round total_backup_hours 1;
    ReliabilityAssessment.critical_load_coverage_percent := py_round critical_coverage 1;
    ReliabilityAssessment.expected_outage_hours_per_year := py_round expected_outage_hours 1;
    ReliabilityAssessment.avoided_outage_cost := py_round avoided_outage_cost 2;
    ReliabilityAssessment.reliability_improvement_percent :=
      py_round (py_min reliability_improvement (lit 99)) 1
  |}.
End ReliabilityAnalyzer.

(** ** Recommendations *)

(** One constructor per message of [generate_recommendations], carrying the
    numbers that the message formats; the fixed wording is not modelled. *)
Inductive Recommendation : Type :=
| InstallSolar (solar_pv_kw renewable_percent : Qc)
| DeployBattery (battery_kwh backup_hours : Qc)
| IncludeGenerator (generator_kw : Qc)
| AttractivePayback (simple_payback_years federal_itc : Qc)
| PositiveNPV (npv : Qc)
| ReliabilityImprovement (reliability_improvement_percent : Qc)
| AvoidedOutageCost (avoided_outage_cost : Qc)
| GridFormingInverters.

Definition generate_recommendations (facility : FacilityInput.t) (design : MicrogridDesign.t)
    (costs : CostEstimate.t) (financial : FinancialAnalysis.t)
    (reliability : ReliabilityAssessment.t) : result (list Recommendation) :=
  let recommendations := [] in
  let recommendations :=
    if decide (0 < MicrogridDesign.solar_pv_kw design) then
      recommendations ++
        [InstallSolar (MicrogridDesign.solar_pv_kw design)
                      (MicrogridDesign.renewable_fraction design * lit 100)]
    else recommendations in
  recommendations ←
    (if decide (0 < MicrogridDesign.battery_kwh design) then
       hours ← MicrogridDesign.battery_kwh design /! MicrogridDesign.battery_kw design;
       mret (recommendations ++ [DeployBattery (MicrogridDesign.battery_kwh design) hours])
     else mret recommendations);
  let recommendations :=
    if decide (0 < MicrogridDesign.generator_kw design) then
      recommendations ++ [IncludeGenerator (MicrogridDesign.generator_kw design)]
    else recommendations in
  let recommendations :=
    if decide (FinancialAnalysis.simple_payback_years financial < lit 10) then
      recommendations ++
        [AttractivePayback (FinancialAnalysis.simple_payback_years financial)
                           (FinancialAnalysis.federal_itc financial)]
    else recommendations in
  let recommendations :=
    if decide (0 < FinancialAnalysis.npv financial) then
      recommendations ++ [PositiveNPV (FinancialAnalysis.npv financial)]
    else recommendations in
  let recommendations :=
    if decide (lit 90 < ReliabilityAssessment.reliability_improvement_percent reliability) then
      recommendations ++
        [ReliabilityImprovement
           (ReliabilityAssessment.reliability_improvement_percent reliability)]
    else recommendations in
  let recommendations :=
    if decide (lit 10000 < ReliabilityAssessment.avoided_outage_cost reliability) then
      recommendations ++
        [AvoidedOutageCost (ReliabilityAssessment.avoided_outage_cost reliability)]
    else recommendations in
  mret (recommendations ++ [GridFormingInverters]).

(** ** The [/analyze] endpoint *)

Module FullAnalysisResult.
Record t : Type := mk {
  facility : LoadAnalysis.t;
  design : MicrogridDesign.t;
  costs : CostEstimate.t;
  financial : FinancialAnalysis.t;
  reliability : ReliabilityAssessment.t;
  recommendations : list Recommendation
}.
End FullAnalysisResult.

Definition analyze_microgrid (facility : FacilityInput.t) : result FullAnalysisResult.t :=
  try_except_500 (
    load_analysis ← analyze_load facility;
    design ← size_system facility load_analysis;
    costs ← estimate_costs design;
    financial ← FinancialAnalyzer.analyze_financials facility design costs;
    reliability ← ReliabilityAnalyzer.assess_reliability facility design load_analysis;
    recommendations ← generate_recommendations facility design costs financial reliability;
    mret {|
      FullAnalysisResult.facility := load_analysis;
      FullAnalysisResult.design := design;
      FullAnalysisResult.costs := costs;
      FullAnalysisResult.financial := financial;
      FullAnalysisResult.reliability := reliability;
      FullAnalysisResult.recommendations := recommendations
    |}).

(** ** The arithmetic in double precision

    The chain above computes on exact rationals.  Python computes on IEEE
    754 binary64 numbers: products overflow to infinity, [inf - inf] and
    [inf / inf] are not-a-number, every comparison with not-a-number is
    false, and [round] works on the binary value.  [Double] transcribes the
    same lines of the source on [spec_float], the executable binary64
    specification of the Standard Library, so that a request can be run as
    the interpreter runs it.  It covers the engines up to the net cost, the
    payback and the IRR of [analyze_financials], and the reliability
    analyzer; the LCOE and the NPV use [**], whose last digit is the C
    library's, and are left out. *)

Module Double.

Definition prec : Z := 53.
Definition emax : Z := 1024.

Definition add (x y : spec_float) : spec_float := SFadd prec emax x y.
Definition sub (x y : spec_float) : spec_float := SFsub prec emax x y.
Definition mul (x y : spec_float) : spec_float := SFmul prec emax x y.
Definition div (x y : spec_float) : spec_float := SFdiv prec emax x y.

(** [x < y], [x <= y] and [x == y]; all false on not-a-number. *)
Definition ltb (x y : spec_float) : bool := SFltb x y.
Definition leb (x y : spec_float) : bool := SFleb x y.
Definition eqb (x y : spec_float) : bool := SFeqb x y.

(** The double nearest to a fraction: a literal of the source, or a number
    of the request body. *)
Definition lit (q : Q) : spec_float :=
  match Qnum q with
  | Z0 => S754_zero false
  | Zpos n => div (S754_finite false n 0) (S754_finite false (Qden q) 0)
  | Zneg n => div (S754_finite true n 0) (S754_finite false (Qden q) 0)
  end.

Arguments lit q%_Q.

Definition zero : spec_float := S754_zero false.

(** The exact value of a finite double. *)
Definition to_Q (x : spec_float) : Q :=
  match x with
  | S754_finite s m e =>
      let v := (inject_Z (Zpos m) * 2 ^ e)%Q in
      if s then (- v)%Q else v
  | _ => 0%Q
  end.

(** [round(x, ndigits)] on a float: the exact binary value is rounded to
    [ndigits] decimals, ties to even, and the decimal result is converted
    to the nearest double; infinities and not-a-number round to
    themselves. *)
Definition py_round (x : spec_float) (ndigits : nat) : spec_float :=
  match x with
  | S754_finite s _ _ =>
      let scale := Z.to_pos (10 ^ Z.of_nat ndigits) in
      match round_half_even (to_Q x * inject_Z (Zpos scale)) with
      | Z0 => S754_zero s
      | Zpos k => div (S754_finite false k 0) (S754_finite false scale 0)
      | Zneg k => div (S754_finite true k 0) (S754_finite false scale 0)
      end
  | _ => x
  end.

Definition py_min (a b : spec_float) : spec_float := if ltb b a then b else a.
Definition py_max (a b : spec_float) : spec_float := if ltb a b then b else a.
Definition py_max3 (a b c : spec_float) : spec_float := py_max (py_max a b) c.

(** [a / b]: raises on a zero denominator, of either sign. *)
Definition pydiv (a b : spec_float) : result spec_float :=
  if eqb b zero then Raise ZeroDivisionError else Ok (div a b).

(** A request, with the five numbers as doubles. *)
Record FacilityInput : Type := mkFacilityInput {
  facility_type : string;
  peak_demand_kw : spec_float;
  annual_consumption_kwh : spec_float;
  critical_load_percent : spec_float;
  essential_load_percent : spec_float;
  backup_duration_hours : spec_float;
  include_solar : bool;
  include_battery : bool;
  include_generator : bool
}.

(** The [Field] constraints; not-a-number fails them. *)
Definition valid (f : FacilityInput) : bool :=
  ltb zero (peak_demand_kw f) && ltb zero (annual_consumption_kwh f)
  && leb zero (critical_load_percent f) && leb (critical_load_percent f) (lit 100)
  && leb zero (essential_load_percent f) && leb (essential_load_percent f) (lit 100)
  && ltb zero (backup_duration_hours f).

Definition is_finite (x : spec_float) : bool :=
  match x with
  | S754_zero _ | S754_finite _ _ _ => true
  | S754_infinity _ | S754_nan => false
  end.

(** Every number of the request is finite. *)
Definition finite (f : FacilityInput) : bool :=
  is_finite (peak_demand_kw f) && is_finite (annual_consumption_kwh f)
  && is_finite (critical_load_percent f) && is_finite (essential_load_percent f)
  && is_finite (backup_duration_hours f).

Record LoadAnalysis : Type := mkLoadAnalysis {
  la_peak_demand_kw : spec_float;
  average_demand_kw : spec_float;
  critical_load_kw : spec_float;
  essential_load_kw : spec_float;
  non_critical_load_kw : spec_float;
  backup_load_kw : spec_float;
  load_factor : spec_float;
  la_annual_consumption_kwh : spec_float
}.

Record MicrogridDesign : Type := mkMicrogridDesign {
  solar_pv_kw : spec_float;
  battery_kw : spec_float;
  battery_kwh : spec_float;
  generator_kw : spec_float;
  inverter_kw : spec_float;
  total_generation_kw : spec_float;
  renewable_fraction : spec_float;
  critical_load_coverage : spec_float
}.

Record CostEstimate : Type := mkCostEstimate {
  solar_pv_cost : spec_float;
  battery_cost : spec_float;
  generator_cost : spec_float;
  inverter_cost : spec_float;
  bos_cost : spec_float;
  installation_cost : spec_float;
  total_capital_cost : spec_float;
  annual_om_cost : spec_float;
  cost_per_kw : spec_float
}.

Record ReliabilityAssessment : Type := mkReliabilityAssessment {
  ra_backup_duration_hours : spec_float;
  critical_load_coverage_percent : spec_float;
  expected_outage_hours_per_year : spec_float;
  avoided_outage_cost : spec_float;
  reliability_improvement_percent : spec_float
}.

Definition analyze_load (facility : FacilityInput) : result LoadAnalysis :=
  let peak := peak_demand_kw facility in
  let annual := annual_consumption_kwh facility in
  let critical_load_kw := mul peak (div (critical_load_percent facility) (lit 100)) in
  let essential_load_kw := mul peak (div (essential_load_percent facility) (lit 100)) in
  let non_critical_load_kw := sub (sub peak critical_load_kw) essential_load_kw in
  let hours_per_year := lit 8760 in
  load_factor ← pydiv annual (mul peak hours_per_year);
  let avg_demand_kw := div annual hours_per_year in
  let backup_load_kw := add critical_load_kw essential_load_kw in
  mret {|
    la_peak_demand_kw := peak;
    average_demand_kw := py_round avg_demand_kw 2;
    critical_load_kw := py_round critical_load_kw 2;
    essential_load_kw := py_round essential_load_kw 2;
    non_critical_load_kw := py_round non_critical_load_kw 2;
    backup_load_kw := py_round backup_load_kw 2;
    load_factor := py_round load_factor 3;
    la_annual_consumption_kwh := annual
  |}.

(** The three loads of [analyze_load] before they are rounded. *)
Definition load_breakdown (facility : FacilityInput)
  : spec_float * spec_float * spec_float :=
  let peak := peak_demand_kw facility in
  let critical_load_kw := mul peak (div (critical_load_percent facility) (lit 100)) in
  let essential_load_kw := mul peak (div (essential_load_percent facility) (lit 100)) in
  let non_critical_load_kw := sub (sub peak critical_load_kw) essential_load_kw in
  (critical_load_kw, essential_load_kw, non_critical_load_kw).

Definition size_system (facility : FacilityInput) (load_analysis : LoadAnalysis)
  : result MicrogridDesign :=
  let backup_load_kw := backup_load_kw load_analysis in
  let critical_load_kw := critical_load_kw load_analysis in
  let solar_pv_kw :=
    if include_solar facility then
      let solar_pv_kw :=
        py_round (div (mul (average_demand_kw load_analysis) (lit 1.3)) (lit 0.269)) 1 in
      py_min solar_pv_kw (mul (peak_demand_kw facility) (lit 1.5))
    else zero in
  let '(battery_kw, battery_kwh) :=
    if include_battery facility then
      let battery_hours := py_min (lit 4) (backup_duration_hours facility) in
      let battery_kwh := py_round (div (mul backup_load_kw battery_hours) (lit 0.85)) 1 in
      let battery_kw := py_round (mul backup_load_kw (lit 1.1)) 1 in
      (battery_kw, battery_kwh)
    else (zero, zero) in
  let generator_kw :=
    if include_generator facility then py_round (mul backup_load_kw (lit 1.2)) 1
    else zero in
  let inverter_kw :=
    py_round (mul (py_max3 solar_pv_kw battery_kw backup_load_kw) (lit 1.1)) 1 in
  let total_generation_kw := add solar_pv_kw generator_kw in
  renewable_fraction ←
    (if ltb zero total_generation_kw then
       q ← pydiv solar_pv_kw total_generation_kw; mret (py_round q 3)
     else mret zero);
  critical_load_coverage ←
    (if ltb zero critical_load_kw then
       q ← pydiv (add battery_kw generator_kw) critical_load_kw; mret (py_min (lit 1) q)
     else mret (lit 1));
  mret {|
    solar_pv_kw := solar_pv_kw;
    battery_kw := battery_kw;
    battery_kwh := battery_kwh;
    generator_kw := generator_kw;
    inverter_kw := inverter_kw;
    total_generation_kw := py_round total_generation_kw 1;
    renewable_fraction := py_round renewable_fraction 3;
    critical_load_coverage := py_round critical_load_coverage 3
  |}.

Definition estimate_costs (design : MicrogridDesign) : result CostEstimate :=
  let solar_pv_cost := mul (solar_pv_kw design) (lit 1551) in
  let battery_cost := mul (battery_kwh design) (lit 485) in
  let generator_cost := mul (generator_kw design) (lit 800) in
  let inverter_cost := mul (inverter_kw design) (lit 150) in
  let equipment_cost :=
    add (add (add solar_pv_cost battery_cost) generator_cost) inverter_cost in
  let bos_cost := mul equipment_cost (lit 0.15) in
  let installation_cost := mul equipment_cost (lit 0.20) in
  let total_capital_cost := add (add equipment_cost bos_cost) installation_cost in
  let annual_om_cost := mul total_capital_cost (lit 0.015) in
  let total_capacity := add (solar_pv_kw design) (generator_kw design) in
  cost_per_kw ←
    (if ltb zero total_capacity then pydiv total_capital_cost total_capacity
     else mret zero);
  mret {|
    solar_pv_cost := py_round solar_pv_cost 2;
    battery_cost := py_round battery_cost 2;
    generator_cost := py_round generator_cost 2;
    inverter_cost := py_round inverter_cost 2;
    bos_cost := py_round bos_cost 2;
    installation_cost := py_round installation_cost 2;
    total_capital_cost := py_round total_capital_cost 2;
    annual_om_cost := py_round annual_om_cost 2;
    cost_per_kw := py_round cost_per_kw 2
  |}.

(** The local variable [net_cost] of [analyze_financials]. *)
Definition net_cost (costs : CostEstimate) : spec_float :=
  let eligible_cost := add (solar_pv_cost costs) (battery_cost costs) in
  let federal_itc := mul eligible_cost (lit 0.30) in
  let interconnection_cost := lit 75 in
  let permit_cost := div (add (lit 50) (lit 500)) (lit 2) in
  let total_incentives := federal_itc in
  add (add (sub (total_capital_cost costs) total_incentives) interconnection_cost)
      permit_cost.

Definition calculate_arbitrage_savings (design : MicrogridDesign) : spec_float :=
  if leb (battery_kwh design) zero then zero
  else
    let summer_spread := sub (lit 0.02554) (lit 0.00607) in
    let battery_efficiency := lit 0.85 in
    let summer_cycles := mul (lit 22) (lit 6) in
    let summer_arbitrage :=
      mul (mul (mul (battery_kwh design) summer_spread) battery_efficiency) summer_cycles in
    let winter_spread := sub (lit 0.00746) (lit 0.00607) in
    let winter_cycles := mul (lit 22) (lit 6) in
    let winter_arbitrage :=
      mul (mul (mul (battery_kwh design) winter_spread) battery_efficiency) winter_cycles in
    add summer_arbitrage winter_arbitrage.

Definition calculate_demand_charge_savings (design : MicrogridDesign) : spec_float :=
  if leb (battery_kw design) zero then zero
  else
    let peak_reduction_kw := mul (battery_kw design) (lit 0.8) in
    let summer_savings := mul (mul peak_reduction_kw (lit 16.13)) (lit 6) in
    let winter_savings := mul (mul peak_reduction_kw (lit 14.50)) (lit 6) in
    add summer_savings winter_savings.

(** The local variables [annual_savings] and [net_annual_savings]. *)
Definition annual_savings (design : MicrogridDesign) : spec_float :=
  let solar_production_kwh := mul (mul (solar_pv_kw design) (lit 8760)) (lit 0.269) in
  let self_consumption_rate := lit 0.80 in
  let electricity_rate := lit 0.0945 in
  let self_consumption_savings :=
    mul (mul solar_production_kwh self_consumption_rate) electricity_rate in
  let export_kwh := mul solar_production_kwh (sub (lit 1) self_consumption_rate) in
  let export_savings := mul export_kwh (lit 0.0259) in
  let arbitrage_savings := calculate_arbitrage_savings design in
  let demand_savings := calculate_demand_charge_savings design in
  add (add (add self_consumption_savings export_savings) arbitrage_savings) demand_savings.

Definition net_annual_savings (design : MicrogridDesign) (costs : CostEstimate)
  : spec_float :=
  sub (annual_savings design) (annual_om_cost costs).

(** The fields [simple_payback_years], [irr] and
    [net_cost_after_incentives] of the result. *)
Definition simple_payback_years (design : MicrogridDesign) (costs : CostEstimate)
  : result spec_float :=
  simple_payback ←
    (if ltb zero (net_annual_savings design costs) then
       pydiv (net_cost costs) (net_annual_savings design costs)
     else mret (lit 999));
  mret (py_round simple_payback 1).

Definition irr (design : MicrogridDesign) (costs : CostEstimate) : result spec_float :=
  irr ←
    (if ltb zero (net_cost costs) then
       pydiv (net_annual_savings design costs) (net_cost costs)
     else mret zero);
  mret (py_round (mul irr (lit 100)) 2).

Definition net_cost_after_incentives (costs : CostEstimate) : spec_float :=
  py_round (net_cost costs) 2.

Definition assess_reliability (facility : FacilityInput) (design : MicrogridDesign)
    (load_analysis : LoadAnalysis) : result ReliabilityAssessment :=
  let expected_outage_hours := div (lit 652.5) (lit 60) in
  battery_hours ←
    (if ltb zero (backup_load_kw load_analysis) then
       pydiv (battery_kwh design) (backup_load_kw load_analysis)
     else mret zero);
  let generator_hours := if ltb zero (generator_kw design) then lit 72 else zero in
  let total_backup_hours := add battery_hours generator_hours in
  let critical_coverage := mul (critical_load_coverage design) (lit 100) in
  let facility_type := lower (facility_type facility) in
  let cost_per_kwh :=
    lit (default 25%Q (this <$> ReliabilityAnalyzer.interruption_costs !! facility_type)) in
  let avoided_energy := mul (critical_load_kw load_analysis) expected_outage_hours in
  let avoided_outage_cost :=
    mul (mul avoided_energy cost_per_kwh) (div critical_coverage (lit 100)) in
  let reliability_improvement :=
    if leb expected_outage_hours total_backup_hours then lit 95
    else mul (div total_backup_hours expected_outage_hours) (lit 100) in
  mret {|
    ra_backup_duration_hours := py_round total_backup_hours 1;
    critical_load_coverage_percent := py_round critical_coverage 1;
    expected_outage_hours_per_year := py_round expected_outage_hours 1;
    avoided_outage_cost := py_round avoided_outage_cost 2;
    reliability_improvement_percent := py_round (py_min reliability_improvement (lit 99)) 1
  |}.

(** The bounds that the theorems on the exact chain state, checked on one
    run: the chain returns, its loads, sizes, costs and reliability figures
    are finite, the returned loads add up to the peak demand to within
    0.02, the reliability improvement is between 0 and 99, the net cost is
    positive and at least 349.99 once rounded, no cost is negative, and
    the backup duration, the coverage and the avoided outage cost are in
    their ranges.  The sum of the loads is taken exactly; the comparisons
    are those of the interpreter. *)
Definition within_bounds (f : FacilityInput) : bool :=
  match (la ← analyze_load f; d ← size_system f la; c ← estimate_costs d;
         r ← assess_reliability f d la; mret (la, d, c, r)) with
  | Ok (la, d, c, r) =>
      forallb is_finite
        [critical_load_kw la; essential_load_kw la; non_critical_load_kw la;
         backup_load_kw la; solar_pv_kw d; battery_kw d; battery_kwh d; generator_kw d;
         inverter_kw d; total_capital_cost c; net_cost c; cost_per_kw c;
         avoided_outage_cost r; ra_backup_duration_hours r;
         reliability_improvement_percent r]
      && (let sum := (to_Q (critical_load_kw la) + to_Q (essential_load_kw la)
                      + to_Q (non_critical_load_kw la))%Q in
          Qle_bool (to_Q (peak_demand_kw f) - 0.02) sum
          && Qle_bool sum (to_Q (peak_demand_kw f) + 0.02))
      && leb zero (reliability_improvement_percent r)
      && leb (reliability_improvement_percent r) (lit 99)
      && ltb zero (net_cost c)
      && leb (lit 349.99) (net_cost_after_incentives c)
      && forallb (leb zero)
           [solar_pv_cost c; battery_cost c; generator_cost c; inverter_cost c;
            bos_cost c; installation_cost c; total_capital_cost c; annual_om_cost c;
            cost_per_kw c; ra_backup_duration_hours r; critical_load_coverage_percent r;
            avoided_outage_cost r]
      && leb (critical_load_coverage_percent r) (lit 100)
  | Raise _ => false
  end.

End Double.

(** A request as the interpreter reads it: every number is the double
    nearest to the decimal of the request body. *)
Definition to_double (f : FacilityInput.t) : Double.FacilityInput :=
  Double.mkFacilityInput (FacilityInput.facility_type f)
    (Double.lit (this (FacilityInput.peak_demand_kw f)))
    (Double.lit (this (FacilityInput.annual_consumption_kwh f)))
    (Double.lit (this (FacilityInput.critical_load_percent f)))
    (Double.lit (this (FacilityInput.essential_load_percent f)))
    (Double.lit (this (FacilityInput.backup_duration_hours f)))
    (FacilityInput.include_solar f) (FacilityInput.include_battery f)
    (FacilityInput.include_generator f).

(** ** The range of the exact model *)

(** A peak demand of at most 10^9 kW, a terawatt.  Up to there the loads,
    the sizes, the costs and the savings of the chain stay far from
    overflow (the largest of them, the total capital cost, is below
    2 * 10^13), and the spacing of the doubles, at most 2^-8 at that size,
    is finer than a cent. *)
Definition moderate_peak (f : FacilityInput.t) : Prop :=
  FacilityInput.peak_demand_kw f ≤ lit 1000000000.

(** A battery of at most 10^10 kWh: more than a terawatt of backup load can
    ask for, and a finite number. *)
Definition moderate_battery (d : MicrogridDesign.t) : Prop :=
  MicrogridDesign.battery_kwh d ≤ lit 10000000000.

(** A solar array and a battery of at most 10^9 kW and kWh: their yearly
    savings stay below 4 * 10^11, where the doubles are 2^-14 apart. *)
Definition moderate_design (d : MicrogridDesign.t) : Prop :=
  MicrogridDesign.solar_pv_kw d ≤ lit 1000000000 ∧
  MicrogridDesign.battery_kw d ≤ lit 1000000000 ∧
  MicrogridDesign.battery_kwh d ≤ lit 1000000000.

(** ** Startup data and the [/health] endpoint *)

(** The keys of [DATA] and the files they are read from, in the order of
    [load_data]. *)
Definition data_files : list (string * string) :=
  [ ("component_costs", "component_costs_collected.csv");
    ("solar_resource", "site_info_collected.csv");
    ("financial_params", "financial_parameters_collected.csv");
    ("utility_rates", "utility_rates.csv");
    ("load_profiles", "load_profiles.csv");
    ("reliability", "reliability_requirements.csv");
    ("tou_rates", "tou_rates.csv");
    ("la_incentives", "louisiana_incentives_interconnection.csv") ].

Section load_data.

(** The type of a parsed table. *)
Context {DataFrame : Type}.

(** [pd.read_csv(DATA_DIR / name, encoding='utf-8')]; [None] stands for any
    exception it raises. *)
Variable read_csv : string → option DataFrame.

(** The assignments inside the [try]: the first exception leaves the block,
    and [data] keeps what was stored before it. *)
Fixpoint load_files (files : list (string * string)) (data : gmap string DataFrame)
  : gmap string DataFrame :=
  match files with
  | [] => data
  | (key, name) :: rest =>
      match read_csv name with
      | Some table => load_files rest (<[key := table]> data)
      | None => data
      end
  end.

Definition load_data : gmap string DataFrame := load_files data_files ∅.

(** The field [data_loaded] of [health_check]: [len(DATA) > 0]. *)
Definition health_check : bool := bool_decide (0 < size load_data)%nat.

End load_data.

(** ** The reference pipeline of the specification

    Section 4.1 of the specification asks for full precision inside the
    chain: the load values are carried unrounded into the sizer and the
    reliability analyzer, and rounded only in the object that is shown.
    The three definitions below follow those words; they are compared with
    [analyze_load] and [analyze_microgrid] further down. *)

(** The load breakdown at full precision. *)
Definition load_values (facility : FacilityInput.t) : result LoadAnalysis.t :=
  let peak := FacilityInput.peak_demand_kw facility in
  let annual := FacilityInput.annual_consumption_kwh facility in
  let critical_kw := peak * (FacilityInput.critical_load_percent facility / lit 100) in
  let essential_kw := peak * (FacilityInput.essential_load_percent facility / lit 100) in
  load_factor ← annual /! (peak * lit 8760);
  mret {|
    LoadAnalysis.peak_demand_kw := peak;
    LoadAnalysis.average_demand_kw := annual / lit 8760;
    LoadAnalysis.critical_load_kw := critical_kw;
    LoadAnalysis.essential_load_kw := essential_kw;
    LoadAnalysis.non_critical_load_kw := peak - critical_kw - essential_kw;
    LoadAnalysis.backup_load_kw := critical_kw + essential_kw;
    LoadAnalysis.load_factor := load_factor;
    LoadAnalysis.annual_consumption_kwh := annual
  |}.

(** Rounding at the output boundary. *)
Definition display_load (la : LoadAnalysis.t) : LoadAnalysis.t :=
  {|
    LoadAnalysis.peak_demand_kw := LoadAnalysis.peak_demand_kw la;
    LoadAnalysis.average_demand_kw := py_round (LoadAnalysis.average_demand_kw la) 2;
    LoadAnalysis.critical_load_kw := py_round (LoadAnalysis.critical_load_kw la) 2;
    LoadAnalysis.essential_load_kw := py_round (LoadAnalysis.essential_load_kw la) 2;
    LoadAnalysis.non_critical_load_kw := py_round (LoadAnalysis.non_critical_load_kw la) 2;
    LoadAnalysis.backup_load_kw := py_round (LoadAnalysis.backup_load_kw la) 2;
    LoadAnalysis.load_factor := py_round (LoadAnalysis.load_factor la) 3;
    LoadAnalysis.annual_consumption_kwh := LoadAnalysis.annual_consumption_kwh la
  |}.

(** The chain with unrounded load values inside and [display_load] in the
    result only. *)
Definition analyze_microgrid_reference (facility : FacilityInput.t)
  : result FullAnalysisResult.t :=
  try_except_500 (
    load_analysis ← load_values facility;
    design ← size_system facility load_analysis;
    costs ← estimate_costs design;
    financial ← FinancialAnalyzer.analyze_financials facility design costs;
    reliability ← ReliabilityAnalyzer.assess_reliability facility design load_analysis;
    recommendations ← generate_recommendations facility design costs financial reliability;
    mret {|
      FullAnalysisResult.facility := display_load load_analysis;
      FullAnalysisResult.design := design;
      FullAnalysisResult.costs := costs;
      FullAnalysisResult.financial := financial;
      FullAnalysisResult.reliability := reliability;
      FullAnalysisResult.recommendations := recommendations
    |}).

(** [x] has at most two decimals: rounding to two decimals leaves it alone. *)
Definition two_decimals (x : Qc) : Prop := py_round x 2 = x.

(** ** Concrete requests *)

Definition facility_with (facility_type : string)
    (peak annual critical essential : Q) (solar battery generator : bool)
  : FacilityInput.t :=
  {|
    FacilityInput.facility_name := "Facility";
    FacilityInput.facility_type := facility_type;
    FacilityInput.location := "baton_rouge";
    FacilityInput.peak_demand_kw := lit peak;
    FacilityInput.annual_consumption_kwh := lit annual;
    FacilityInput.critical_load_percent := lit critical;
    FacilityInput.essential_load_percent := lit essential;
    FacilityInput.backup_duration_hours := lit 24;
    FacilityInput.grid_connected := true;
    FacilityInput.include_solar := solar;
    FacilityInput.include_battery := battery;
    FacilityInput.include_generator := generator
  |}.

(** The scenario of the specification: 500 kW peak, 2 GWh a year, 30 % and
    40 %, every subsystem included. *)
Definition scenario : FacilityInput.t :=
  facility_with "commercial" 500 2000000 30 40 true true true.

(** The same facility with no subsystem included. *)
Definition scenario_no_subsystem : FacilityInput.t :=
  facility_with "commercial" 500 2000000 30 40 false false false.

(** A facility whose load values all have at most two decimals. *)
Definition round_facility : FacilityInput.t :=
  facility_with "commercial" 500 876000 30 40 true true true.

(** 33 % of 10.44 kW is 3.4452 kW, which the analyzer rounds to 3.45 kW. *)
Definition fractional_facility : FacilityInput.t :=
  facility_with "commercial" 10.44 50000 33 40 true true true.

(** A third each of 1 kW, written 33.3 %. *)
Definition thirds_facility : FacilityInput.t :=
  facility_with "commercial" 1 5000 33.3 33.3 true true true.

(** A 1 kW facility with 2 % critical and 2 % essential load. *)
Definition tiny_backup_facility : FacilityInput.t :=
  facility_with "residential" 1 8760 2 2 true true true.

(** Little solar next to a large generator, no battery. *)
Definition marginal_facility : FacilityInput.t :=
  facility_with "commercial" 1000 28119.6 4 6.03 true false true.

(** A hospital, spelled with a capital letter. *)
Definition capital_hospital : FacilityInput.t :=
  facility_with "Hospital" 500 2000000 30 40 true true true.

(** A facility type that the interruption-cost table does not list. *)
Definition school : FacilityInput.t :=
  facility_with "school" 500 2000000 30 40 true true true.

(** The same scenario without the generator. *)
Definition no_generator_facility : FacilityInput.t :=
  facility_with "commercial" 500 2000000 30 40 true true false.

(** The same scenario with the generator alone. *)
Definition generator_only_facility : FacilityInput.t :=
  facility_with "commercial" 500 2000000 30 40 false false true.

(** A peak demand of a terawatt, all of it critical and essential. *)
Definition terawatt_facility : FacilityInput.t :=
  facility_with "hospital" 1000000000 8760000000000 100 100 true true true.

(** A peak demand and a consumption of 1e306, with the default shares. *)
Definition huge_facility : FacilityInput.t :=
  facility_with "commercial" 1e306 1e306 30 40 true true true.

(** A peak demand just below the largest double, all of it critical and
    essential. *)
Definition largest_facility : FacilityInput.t :=
  facility_with "commercial" 1.7e308 2000000 100 100 true true true.

(** 1 % and 2 % of 10 kW. *)
Definition small_shares_facility : FacilityInput.t :=
  facility_with "commercial" 10 50000 1 2 true true true.

(** A grid over the range: peak demands from 4 W to a terawatt, yearly
    consumptions from 1 kWh to 10^15 kWh, shares from nothing to
    everything, a short and a long backup, and every choice of
    subsystems. *)
Definition grid_request (peak annual critical essential backup : Q)
    (flags : bool * bool * bool) : FacilityInput.t :=
  {|
    FacilityInput.facility_name := "Facility";
    FacilityInput.facility_type := "hospital";
    FacilityInput.location := "baton_rouge";
    FacilityInput.peak_demand_kw := lit peak;
    FacilityInput.annual_consumption_kwh := lit annual;
    FacilityInput.critical_load_percent := lit critical;
    FacilityInput.essential_load_percent := lit essential;
    FacilityInput.backup_duration_hours := lit backup;
    FacilityInput.grid_connected := true;
    FacilityInput.include_solar := flags.1.1;
    FacilityInput.include_battery := flags.1.2;
    FacilityInput.include_generator := flags.2
  |}.

Definition grid : list FacilityInput.t :=
  peak ← [0.004; 1; 10.44; 500; 123456.78; 1000000000]%Q;
  annual ← [1; 2000000; 1e15]%Q;
  critical ← [0; 1; 33.3; 100]%Q;
  essential ← [0; 2; 33.3; 100]%Q;
  backup ← [0.5; 24]%Q;
  flags ← [(true, true, true); (true, true, false); (true, false, true);
           (false, true, true); (true, false, false); (false, true, false);
           (false, false, true); (false, false, false)];
  [grid_request peak annual critical essential backup flags].

(** The load analysis and the design of [scenario]. *)
Definition scenario_load : LoadAnalysis.t :=
  {|
    LoadAnalysis.peak_demand_kw := lit 500;
    LoadAnalysis.average_demand_kw := lit 228.31;
    LoadAnalysis.critical_load_kw := lit 150;
    LoadAnalysis.essential_load_kw := lit 200;
    LoadAnalysis.non_critical_load_kw := lit 150;
    LoadAnalysis.backup_load_kw := lit 350;
    LoadAnalysis.load_factor := lit 0.457;
    LoadAnalysis.annual_consumption_kwh := lit 2000000
  |}.

Definition scenario_design : MicrogridDesign.t :=
  {|
    MicrogridDesign.solar_pv_kw := lit 750;
    MicrogridDesign.battery_kw := lit 385;
    MicrogridDesign.battery_kwh := lit 1647.1;
    MicrogridDesign.generator_kw := lit 420;
    MicrogridDesign.inverter_kw := lit 825;
    MicrogridDesign.total_generation_kw := lit 1170;
    MicrogridDesign.renewable_fraction := lit 0.641;
    MicrogridDesign.critical_load_coverage := lit 1
  |}.

(** The cost estimate, the financial analysis and the reliability
    assessment of [scenario]. *)
Definition scenario_costs : CostEstimate.t :=
  {|
    CostEstimate.solar_pv_cost := lit 1163250;
    CostEstimate.battery_cost := lit 798843.5;
    CostEstimate.generator_cost := lit 336000;
    CostEstimate.inverter_cost := lit 123750;
    CostEstimate.bos_cost := lit 363276.52;
    CostEstimate.installation_cost := lit 484368.7;
    CostEstimate.total_capital_cost := lit 3269488.72;
    CostEstimate.annual_om_cost := lit 49042.33;
    CostEstimate.cost_per_kw := lit 2794.43
  |}.

Definition scenario_financial : FinancialAnalysis.t :=
  {|
    FinancialAnalysis.lcoe := lit 0.0749;
    FinancialAnalysis.simple_payback_years := lit 17.4;
    FinancialAnalysis.npv := lit (-252476.96);
    FinancialAnalysis.irr := lit 5.75;
    FinancialAnalysis.annual_savings := lit 203224.18;
    FinancialAnalysis.federal_itc := lit 588628.05;
    FinancialAnalysis.total_incentives := lit 588628.05;
    FinancialAnalysis.net_cost_after_incentives := lit 2681210.67
  |}.

Definition scenario_reliability : ReliabilityAssessment.t :=
  {|
    ReliabilityAssessment.backup_duration_hours := lit 76.7;
    ReliabilityAssessment.critical_load_coverage_percent := lit 100;
    ReliabilityAssessment.expected_outage_hours_per_year := lit 10.9;
    ReliabilityAssessment.avoided_outage_cost := lit 40781.25;
    ReliabilityAssessment.reliability_improvement_percent := lit 95
  |}.

(** ** The messages of [generate_recommendations] *)

(** [l] when [P] holds, nothing otherwise: one [if ...: append] of the source. *)
Definition when_true {A} (P : Prop) `{Decision P} (l : list A) : list A :=
  if decide P then l else [].

(** The eight messages in the order of the source, each with the numbers
    it formats. *)
Definition all_recommendations (d : MicrogridDesign.t) (fin : FinancialAnalysis.t)
    (rel : ReliabilityAssessment.t) : list Recommendation :=
  [ InstallSolar (MicrogridDesign.solar_pv_kw d)
                 (MicrogridDesign.renewable_fraction d * lit 100);
    DeployBattery (MicrogridDesign.battery_kwh d)
                  (MicrogridDesign.battery_kwh d / MicrogridDesign.battery_kw d);
    IncludeGenerator (MicrogridDesign.generator_kw d);
    AttractivePayback (FinancialAnalysis.simple_payback_years fin)
                      (FinancialAnalysis.federal_itc fin);
    PositiveNPV (FinancialAnalysis.npv fin);
    ReliabilityImprovement (ReliabilityAssessment.reliability_improvement_percent rel);
    AvoidedOutageCost (ReliabilityAssessment.avoided_outage_cost rel);
    GridFormingInverters ].

(** ** Predicates on designs *)

(** No quantity of the design is negative. *)
Definition nonneg_design (d : MicrogridDesign.t) : Prop :=
  0 ≤ MicrogridDesign.solar_pv_kw d ∧
  0 ≤ MicrogridDesign.battery_kw d ∧
  0 ≤ MicrogridDesign.battery_kwh d ∧
  0 ≤ MicrogridDesign.generator_kw d ∧
  0 ≤ MicrogridDesign.inverter_kw d ∧
  0 ≤ MicrogridDesign.total_generation_kw d ∧
  0 ≤ MicrogridDesign.renewable_fraction d ∧
  0 ≤ MicrogridDesign.critical_load_coverage d.

(** * Properties *)

(** ** From [Qc] to [Q]

    Order and equality on [Qc] are those of the underlying fractions, where
    [lra] decides linear goals. *)

Lemma this_lit (a : Q) : (this (Q2Qc a) == a)%Q.
Proof. apply Qred_correct. Qed.

Lemma this_plus (x y : Qc) : (this (x + y) == this x + this y)%Q.
Proof. apply Qred_correct. Qed.

Lemma this_mult (x y : Qc) : (this (x * y) == this x * this y)%Q.
Proof. apply Qred_correct. Qed.

Lemma this_opp (x : Qc) : (this (- x) == - this x)%Q.
Proof. apply Qred_correct. Qed.

Lemma this_minus (x y : Qc) : (this (x - y) == this x - this y)%Q.
Proof. unfold Qcminus. rewrite this_plus, this_opp. reflexivity. Qed.

Lemma this_div_lit (x : Qc) (a : Q) : (this (x / Q2Qc a) == this x * / a)%Q.
Proof.
  unfold Qcdiv, Qcinv. rewrite this_mult, !this_lit. reflexivity.
Qed.

Lemma Qc_eq_this (x y : Qc) : x = y → (this x == this y)%Q.
Proof. intros ->. reflexivity. Qed.

Lemma Qc_neq_this (x y : Qc) : x ≠ y → ¬ (this x == this y)%Q.
Proof. intros Hne Heq. apply Hne, Qc_is_canon, Heq. Qed.

(** Constants of the source that the arithmetic must see through. *)
Ltac unfold_constants :=
  unfold SystemSizer.solar_capacity_factor, SystemSizer.battery_round_trip_efficiency,
    default_costs.solar_pv_per_kw, default_costs.battery_per_kwh,
    default_costs.generator_per_kw, default_costs.inverter_per_kw,
    default_costs.bos_percent, default_costs.installation_percent,
    default_costs.om_percent,
    FinancialAnalyzer.federal_itc_rate, FinancialAnalyzer.interconnection_fee_commercial,
    FinancialAnalyzer.permit_fee_min, FinancialAnalyzer.permit_fee_max,
    ReliabilityAnalyzer.expected_outage_hours, ReliabilityAnalyzer.saidi_with_med,
    lit in *.

(** Replace the inverse of a literal fraction by its value. *)
Ltac eval_inverses :=
  repeat match goal with
  | |- context [Qinv (Qmake ?n ?d)] =>
      let v := eval vm_compute in (Qinv (Qmake n d)) in
      change (Qinv (Qmake n d)) with v
  | H : context [Qinv (Qmake ?n ?d)] |- _ =>
      let v := eval vm_compute in (Qinv (Qmake n d)) in
      change (Qinv (Qmake n d)) with v in H
  end.

Ltac qc_to_q :=
  unfold_constants;
  repeat match goal with
  | H : @eq Qc _ _ |- _ => apply Qc_eq_this in H
  | H : not (@eq Qc _ _) |- _ => apply Qc_neq_this in H
  | H : not (Qclt _ _) |- _ => apply Qcnot_lt_le in H
  | H : not (Qcle _ _) |- _ => apply Qcnot_le_lt in H
  end;
  try match goal with
  | |- @eq Qc _ _ => apply Qc_is_canon
  | |- not (Qclt _ _) => apply Qcle_not_lt
  | |- not (Qcle _ _) => apply Qclt_not_le
  end;
  unfold Qcle, Qclt in *;
  repeat (progress
    rewrite ?this_div_lit, ?this_minus, ?this_plus, ?this_mult, ?this_opp, ?this_lit in * );
  eval_inverses.

Ltac qc_lra := qc_to_q; lra.

(** ** Rounding *)

Lemma round_half_even_bounds (y : Q) :
  (inject_Z (round_half_even y) - (1 # 2) <= y)%Q ∧
  (y <= inject_Z (round_half_even y) + (1 # 2))%Q.
Proof.
  unfold round_half_even.
  pose proof (Qfloor_le y) as Hlo. pose proof (Qlt_floor y) as Hhi.
  rewrite inject_Z_plus in Hhi. change (inject_Z 1) with 1%Q in Hhi.
  destruct (Qcompare_spec (y - inject_Z (Qfloor y)) (1 # 2)) as [He|Hl|Hg].
  - destruct (Z.even (Qfloor y)); rewrite ?inject_Z_plus;
      change (inject_Z 1) with 1%Q; lra.
  - lra.
  - rewrite inject_Z_plus. change (inject_Z 1) with 1%Q. lra.
Qed.

Lemma round_half_even_floor (y : Q) :
  (Qfloor y <= round_half_even y <= Qfloor y + 1)%Z.
Proof.
  unfold round_half_even.
  destruct (_ ?= _)%Q; try destruct (Z.even _); lia.
Qed.

Lemma round_half_even_mono (x y : Q) :
  (x <= y)%Q → (round_half_even x <= round_half_even y)%Z.
Proof.
  intros Hxy.
  pose proof (Qfloor_resp_le _ _ Hxy) as Hfl.
  destruct (Z.eq_dec (Qfloor x) (Qfloor y)) as [Heq|Hne].
  - unfold round_half_even. rewrite <- Heq.
    destruct (Qcompare_spec (x - inject_Z (Qfloor x)) (1 # 2)) as [He|Hl|Hg];
      destruct (Qcompare_spec (y - inject_Z (Qfloor x)) (1 # 2)) as [He'|Hl'|Hg'];
      try destruct (Z.even (Qfloor x)); try lia; lra.
  - pose proof (round_half_even_floor x). pose proof (round_half_even_floor y). lia.
Qed.

Lemma scale_pos (n : nat) : (0 < inject_Z (10 ^ Z.of_nat n))%Q.
Proof.
  change 0%Q with (inject_Z 0). rewrite <- Zlt_Qlt.
  apply Z.pow_pos_nonneg; lia.
Qed.

Lemma py_round_mono (x y : Qc) (n : nat) : x ≤ y → py_round x n ≤ py_round y n.
Proof.
  intros Hxy. unfold py_round, Qcle. rewrite !this_lit.
  pose proof (scale_pos n) as Hs.
  set (s := inject_Z (10 ^ Z.of_nat n)) in *.
  apply Qmult_le_compat_r.
  - rewrite <- Zle_Qle. apply round_half_even_mono.
    apply Qmult_le_compat_r; [exact Hxy | lra].
  - apply Qinv_le_0_compat. lra.
Qed.

(** The rounding error is at most half a unit of the last decimal. *)
Lemma py_round_error (x : Qc) (n : nat) :
  (this (py_round x n) - (1 # 2) / inject_Z (10 ^ Z.of_nat n) <= this x)%Q ∧
  (this x <= this (py_round x n) + (1 # 2) / inject_Z (10 ^ Z.of_nat n))%Q.
Proof.
  unfold py_round. rewrite !this_lit.
  pose proof (scale_pos n) as Hs.
  set (s := inject_Z (10 ^ Z.of_nat n)) in *.
  destruct (round_half_even_bounds (this x * s)) as [Hlo Hhi].
  set (r := inject_Z (round_half_even (this x * s))) in *.
  split.
  - setoid_replace (r / s - (1 # 2) / s)%Q with ((r - (1 # 2)) / s)%Q using relation Qeq by (field; lra).
    apply Qle_shift_div_r; [exact Hs | exact Hlo].
  - setoid_replace (r / s + (1 # 2) / s)%Q with ((r + (1 # 2)) / s)%Q using relation Qeq by (field; lra).
    apply Qle_shift_div_l; [exact Hs | exact Hhi].
Qed.

Lemma py_round_2_error (x : Qc) :
  py_round x 2 - lit 0.005 ≤ x ∧ x ≤ py_round x 2 + lit 0.005.
Proof.
  destruct (py_round_error x 2) as [Hlo Hhi].
  change ((1 # 2) / inject_Z (10 ^ Z.of_nat 2))%Q with (1 # 200)%Q in *.
  split; qc_lra.
Qed.

Lemma py_round_nonneg (x : Qc) (n : nat) : 0 ≤ x → 0 ≤ py_round x n.
Proof.
  intros Hx. unfold py_round, Qcle. rewrite !this_lit.
  pose proof (scale_pos n) as Hs.
  set (s := inject_Z (10 ^ Z.of_nat n)) in *.
  apply Qle_shift_div_l; [exact Hs |]. rewrite Qmult_0_l.
  change 0%Q with (inject_Z 0). rewrite <- Zle_Qle.
  etrans; [| apply round_half_even_floor].
  change 0%Z with (Qfloor 0). apply Qfloor_resp_le.
  apply Qmult_le_0_compat; [exact Hx | lra].
Qed.

(** ** Minimum and maximum *)

Lemma py_min_le_l (a b : Qc) : py_min a b ≤ a.
Proof. unfold py_min. case_decide; [by apply Qclt_le_weak | reflexivity]. Qed.

Lemma py_min_le_r (a b : Qc) : py_min a b ≤ b.
Proof. unfold py_min. case_decide; [reflexivity | by apply Qcnot_lt_le]. Qed.

Lemma py_min_glb (a b c : Qc) : c ≤ a → c ≤ b → c ≤ py_min a b.
Proof. intros. unfold py_min. by case_decide. Qed.

Lemma py_max_ge_l (a b : Qc) : a ≤ py_max a b.
Proof. unfold py_max. case_decide; [by apply Qclt_le_weak | reflexivity]. Qed.


Lemma py_max3_ge (a b c : Qc) : a ≤ py_max3 a b c.
Proof.
  unfold py_max3. etrans; [apply (py_max_ge_l a b) | apply py_max_ge_l].
Qed.

(** ** Division *)

Lemma pydiv_pos (a b : Qc) : 0 < b → a /! b = Ok (a / b).
Proof.
  intros Hb. unfold pydiv. case_decide as Hz; [|reflexivity].
  rewrite Hz in Hb. by apply Qclt_not_eq in Hb.
Qed.

Lemma pydiv_zero (a : Qc) : a /! 0 = Raise ZeroDivisionError.
Proof. reflexivity. Qed.

Lemma Qcdiv_nonneg (a b : Qc) : 0 ≤ a → 0 < b → 0 ≤ a / b.
Proof.
  intros Ha Hb. unfold Qcdiv. apply Qcmult_nonneg_nonneg; [exact Ha |].
  by apply Qclt_le_weak, Qcinv_pos.
Qed.

(** ** The engines in closed form

    Each engine returns, and its guarded divisions never raise.  The lemmas
    below give every field of the returned object as a total expression. *)

(** A division behind the guard [0 < b]. *)
Lemma guarded_div {A} (a b : Qc) (k : Qc → result A) (fallback : result A) :
  (if decide (0 < b) then q ← a /! b; k q else fallback)
  = (if decide (0 < b) then k (a / b) else fallback).
Proof. case_decide; [by rewrite pydiv_pos | reflexivity]. Qed.

Lemma guarded_div_ret (a b fallback : Qc) :
  (if decide (0 < b) then a /! b else mret fallback)
  = Ok (if decide (0 < b) then a / b else fallback).
Proof. case_decide; [by rewrite pydiv_pos | reflexivity]. Qed.

Lemma load_values_ok (f : FacilityInput.t) :
  0 < FacilityInput.peak_demand_kw f →
  ∃ la, load_values f = Ok la ∧
    LoadAnalysis.peak_demand_kw la = FacilityInput.peak_demand_kw f ∧
    LoadAnalysis.average_demand_kw la = FacilityInput.annual_consumption_kwh f / lit 8760 ∧
    LoadAnalysis.critical_load_kw la =
      FacilityInput.peak_demand_kw f * (FacilityInput.critical_load_percent f / lit 100) ∧
    LoadAnalysis.essential_load_kw la =
      FacilityInput.peak_demand_kw f * (FacilityInput.essential_load_percent f / lit 100) ∧
    LoadAnalysis.non_critical_load_kw la =
      FacilityInput.peak_demand_kw f - LoadAnalysis.critical_load_kw la
        - LoadAnalysis.essential_load_kw la ∧
    LoadAnalysis.backup_load_kw la =
      LoadAnalysis.critical_load_kw la + LoadAnalysis.essential_load_kw la.
Proof.
  intros Hpeak. unfold load_values.
  rewrite pydiv_pos by (apply Qcmult_pos_pos; [exact Hpeak | reflexivity]).
  eexists. split; [reflexivity |]. simpl. done.
Qed.

(** [analyze_load] is [load_values] followed by the display rounding. *)
Lemma analyze_load_display (f : FacilityInput.t) :
  analyze_load f = la ← load_values f; mret (display_load la).
Proof.
  unfold analyze_load, load_values.
  destruct (_ /! _); reflexivity.
Qed.

Lemma size_system_fields (f : FacilityInput.t) (la : LoadAnalysis.t) :
  ∃ d, size_system f la = Ok d ∧
    MicrogridDesign.solar_pv_kw d =
      (if FacilityInput.include_solar f then
         py_min (py_round (LoadAnalysis.average_demand_kw la * lit 1.3 / lit 0.269) 1)
                (FacilityInput.peak_demand_kw f * lit 1.5)
       else 0) ∧
    MicrogridDesign.battery_kw d =
      (if FacilityInput.include_battery f then
         py_round (LoadAnalysis.backup_load_kw la * lit 1.1) 1
       else 0) ∧
    MicrogridDesign.battery_kwh d =
      (if FacilityInput.include_battery f then
         py_round (LoadAnalysis.backup_load_kw la
                   * py_min (lit 4) (FacilityInput.backup_duration_hours f) / lit 0.85) 1
       else 0) ∧
    MicrogridDesign.generator_kw d =
      (if FacilityInput.include_generator f then
         py_round (LoadAnalysis.backup_load_kw la * lit 1.2) 1
       else 0) ∧
    MicrogridDesign.inverter_kw d =
      py_round (py_max3 (MicrogridDesign.solar_pv_kw d) (MicrogridDesign.battery_kw d)
                        (LoadAnalysis.backup_load_kw la) * lit 1.1) 1 ∧
    MicrogridDesign.total_generation_kw d =
      py_round (MicrogridDesign.solar_pv_kw d + MicrogridDesign.generator_kw d) 1 ∧
    MicrogridDesign.renewable_fraction d =
      py_round
        (if decide (0 < MicrogridDesign.solar_pv_kw d + MicrogridDesign.generator_kw d) then
           py_round (MicrogridDesign.solar_pv_kw d
                     / (MicrogridDesign.solar_pv_kw d + MicrogridDesign.generator_kw d)) 3
         else 0) 3 ∧
    MicrogridDesign.critical_load_coverage d =
      py_round
        (if decide (0 < LoadAnalysis.critical_load_kw la) then
           py_min 1 ((MicrogridDesign.battery_kw d + MicrogridDesign.generator_kw d)
                     / LoadAnalysis.critical_load_kw la)
         else 1) 3.
Proof.
  unfold size_system.
  destruct (FacilityInput.include_solar f), (FacilityInput.include_battery f),
    (FacilityInput.include_generator f); cbv zeta iota beta;
    rewrite !guarded_div; repeat case_decide;
    (eexists; split; [reflexivity |]); cbn [MicrogridDesign.solar_pv_kw
      MicrogridDesign.battery_kw MicrogridDesign.battery_kwh MicrogridDesign.generator_kw
      MicrogridDesign.inverter_kw MicrogridDesign.total_generation_kw
      MicrogridDesign.renewable_fraction MicrogridDesign.critical_load_coverage];
    rewrite ?decide_True, ?decide_False by done; done.
Qed.

Lemma estimate_costs_fields (d : MicrogridDesign.t) :
  ∃ c, estimate_costs d = Ok c ∧
    CostEstimate.solar_pv_cost c = py_round (MicrogridDesign.solar_pv_kw d * lit 1551) 2 ∧
    CostEstimate.battery_cost c = py_round (MicrogridDesign.battery_kwh d * lit 485) 2 ∧
    CostEstimate.total_capital_cost c =
      py_round (equipment_cost d + equipment_cost d * lit 0.15
                + equipment_cost d * lit 0.20) 2 ∧
    CostEstimate.cost_per_kw c =
      py_round
        (if decide (0 < MicrogridDesign.solar_pv_kw d + MicrogridDesign.generator_kw d) then
           (equipment_cost d + equipment_cost d * lit 0.15 + equipment_cost d * lit 0.20)
           / (MicrogridDesign.solar_pv_kw d + MicrogridDesign.generator_kw d)
         else 0) 2.
Proof.
  unfold estimate_costs. rewrite guarded_div_ret.
  eexists. split; [reflexivity |]. done.
Qed.

Lemma analyze_financials_fields (f : FacilityInput.t) (d : MicrogridDesign.t)
    (c : CostEstimate.t) :
  ∃ fin, FinancialAnalyzer.analyze_financials f d c = Ok fin ∧
    FinancialAnalysis.simple_payback_years fin =
      py_round
        (if decide (0 < FinancialAnalyzer.net_annual_savings d c) then
           FinancialAnalyzer.net_cost c / FinancialAnalyzer.net_annual_savings d c
         else lit 999) 1 ∧
    FinancialAnalysis.irr fin =
      py_round
        ((if decide (0 < FinancialAnalyzer.net_cost c) then
            FinancialAnalyzer.net_annual_savings d c / FinancialAnalyzer.net_cost c
          else 0) * lit 100) 2 ∧
    FinancialAnalysis.net_cost_after_incentives fin =
      py_round (FinancialAnalyzer.net_cost c) 2.
Proof.
  unfold FinancialAnalyzer.analyze_financials.
  rewrite !guarded_div_ret.
  eexists. split; [reflexivity |]. done.
Qed.

Lemma total_backup_hours_ok (d : MicrogridDesign.t) (la : LoadAnalysis.t) :
  ReliabilityAnalyzer.total_backup_hours d la =
    Ok ((if decide (0 < LoadAnalysis.backup_load_kw la) then
           MicrogridDesign.battery_kwh d / LoadAnalysis.backup_load_kw la
         else 0)
        + ReliabilityAnalyzer.generator_hours d).
Proof.
  unfold ReliabilityAnalyzer.total_backup_hours, ReliabilityAnalyzer.battery_hours.
  rewrite guarded_div_ret. reflexivity.
Qed.

Lemma assess_reliability_fields (f : FacilityInput.t) (d : MicrogridDesign.t)
    (la : LoadAnalysis.t) :
  ∃ total rel,
    ReliabilityAnalyzer.total_backup_hours d la = Ok total ∧
    ReliabilityAnalyzer.assess_reliability f d la = Ok rel ∧
    ReliabilityAssessment.avoided_outage_cost rel =
      py_round (LoadAnalysis.critical_load_kw la * ReliabilityAnalyzer.expected_outage_hours
                * ReliabilityAnalyzer.cost_per_kwh f
                * (MicrogridDesign.critical_load_coverage d * lit 100 / lit 100)) 2 ∧
    ReliabilityAssessment.reliability_improvement_percent rel =
      py_round (py_min (ReliabilityAnalyzer.reliability_improvement total) (lit 99)) 1.
Proof.
  unfold ReliabilityAnalyzer.assess_reliability.
  rewrite total_backup_hours_ok.
  eexists. eexists. split; [reflexivity |]. split; [reflexivity |]. done.
Qed.

(** The only division of the chain that can raise: the battery message
    divides by [battery_kw] behind a guard on [battery_kwh]. *)
Lemma generate_recommendations_ok (f : FacilityInput.t) (d : MicrogridDesign.t)
    (c : CostEstimate.t) (fin : FinancialAnalysis.t) (rel : ReliabilityAssessment.t) :
  ¬ 0 < MicrogridDesign.battery_kwh d ∨ MicrogridDesign.battery_kw d ≠ 0 →
  ∃ recs, generate_recommendations f d c fin rel = Ok recs.
Proof.
  intros Hguard. unfold generate_recommendations.
  destruct (decide (0 < MicrogridDesign.battery_kwh d)) as [Hkwh | Hkwh].
  - destruct Hguard as [Hguard | Hkw]; [done |].
    unfold pydiv. rewrite (decide_False (P := MicrogridDesign.battery_kw d = 0)) by exact Hkw.
    eexists. reflexivity.
  - eexists. reflexivity.
Qed.

Lemma generate_recommendations_raises (f : FacilityInput.t) (d : MicrogridDesign.t)
    (c : CostEstimate.t) (fin : FinancialAnalysis.t) (rel : ReliabilityAssessment.t) :
  0 < MicrogridDesign.battery_kwh d → MicrogridDesign.battery_kw d = 0 →
  generate_recommendations f d c fin rel = Raise ZeroDivisionError.
Proof.
  intros Hkwh Hkw. unfold generate_recommendations.
  rewrite (decide_True (P := 0 < MicrogridDesign.battery_kwh d)) by exact Hkwh.
  rewrite Hkw. reflexivity.
Qed.

(** ** Signs along the chain *)

Lemma Qc_0_le_1 : 0 ≤ 1.
Proof. by apply Qclt_le_weak. Qed.

Lemma lit_pos (a : Q) : (0 < a)%Q → 0 < lit a.
Proof. intros Ha. unfold lit, Qclt. rewrite !this_lit. exact Ha. Qed.

Lemma Qcdiv_lit_nonneg (x : Qc) (a : Q) : (0 < a)%Q → 0 ≤ x → 0 ≤ x / lit a.
Proof. intros Ha Hx. apply Qcdiv_nonneg; [exact Hx | by apply lit_pos]. Qed.

Lemma Qcmult_lit_nonneg (x : Qc) (a : Q) : (0 < a)%Q → 0 ≤ x → 0 ≤ x * lit a.
Proof.
  intros Ha Hx. apply Qcmult_nonneg_nonneg; [exact Hx |].
  by apply Qclt_le_weak, lit_pos.
Qed.

Lemma analyze_load_ok (f : FacilityInput.t) :
  FacilityInput.valid f →
  ∃ la, analyze_load f = Ok la ∧
    LoadAnalysis.peak_demand_kw la = FacilityInput.peak_demand_kw f ∧
    LoadAnalysis.critical_load_kw la =
      py_round (FacilityInput.peak_demand_kw f
                * (FacilityInput.critical_load_percent f / lit 100)) 2 ∧
    0 ≤ LoadAnalysis.average_demand_kw la ∧
    0 ≤ LoadAnalysis.critical_load_kw la ∧
    0 ≤ LoadAnalysis.backup_load_kw la.
Proof.
  intros (Hpeak & Hannual & [Hc _] & [He _] & _).
  destruct (load_values_ok f Hpeak) as (lx & Hlx & Hpk & Havg & Hcrit & Hess & _ & Hbackup).
  rewrite analyze_load_display, Hlx.
  eexists. split; [reflexivity |]. cbn.
  assert (Hck : 0 ≤ LoadAnalysis.critical_load_kw lx).
  { rewrite Hcrit. apply Qcmult_nonneg_nonneg; [by apply Qclt_le_weak |].
    by apply Qcdiv_lit_nonneg. }
  assert (Hek : 0 ≤ LoadAnalysis.essential_load_kw lx).
  { rewrite Hess. apply Qcmult_nonneg_nonneg; [by apply Qclt_le_weak |].
    by apply Qcdiv_lit_nonneg. }
  split; [exact Hpk |]. split; [by rewrite Hcrit |].
  split; [| split]; apply py_round_nonneg.
  - rewrite Havg. apply Qcdiv_lit_nonneg; [done | by apply Qclt_le_weak].
  - exact Hck.
  - rewrite Hbackup. by apply Qcplus_nonneg_nonneg.
Qed.

Lemma py_min_nonneg (a b : Qc) : 0 ≤ a → 0 ≤ b → 0 ≤ py_min a b.
Proof. apply py_min_glb. Qed.

Lemma design_nonneg (f : FacilityInput.t) (la : LoadAnalysis.t) (d : MicrogridDesign.t) :
  FacilityInput.valid f →
  0 ≤ LoadAnalysis.average_demand_kw la →
  0 ≤ LoadAnalysis.critical_load_kw la →
  0 ≤ LoadAnalysis.backup_load_kw la →
  size_system f la = Ok d →
  nonneg_design d.
Proof.
  intros (Hpeak & _ & _ & _ & Hdur) Havg Hcrit Hbackup Hd.
  destruct (size_system_fields f la)
    as (d' & Hd' & Hs & Hkw & Hkwh & Hg & Hinv & Htot & Hrf & Hcov).
  rewrite Hd in Hd'. injection Hd' as <-.
  assert (Hs0 : 0 ≤ MicrogridDesign.solar_pv_kw d).
  { rewrite Hs. destruct (FacilityInput.include_solar f); [| reflexivity].
    apply py_min_nonneg.
    - apply py_round_nonneg, Qcdiv_lit_nonneg; [done |].
      by apply Qcmult_lit_nonneg.
    - apply Qcmult_lit_nonneg; [done | by apply Qclt_le_weak]. }
  assert (Hkw0 : 0 ≤ MicrogridDesign.battery_kw d).
  { rewrite Hkw. destruct (FacilityInput.include_battery f); [| reflexivity].
    by apply py_round_nonneg, Qcmult_lit_nonneg. }
  assert (Hkwh0 : 0 ≤ MicrogridDesign.battery_kwh d).
  { rewrite Hkwh. destruct (FacilityInput.include_battery f); [| reflexivity].
    apply py_round_nonneg, Qcdiv_lit_nonneg; [done |].
    apply Qcmult_nonneg_nonneg; [done |].
    apply py_min_nonneg; [done | by apply Qclt_le_weak]. }
  assert (Hg0 : 0 ≤ MicrogridDesign.generator_kw d).
  { rewrite Hg. destruct (FacilityInput.include_generator f); [| reflexivity].
    by apply py_round_nonneg, Qcmult_lit_nonneg. }
  repeat split; try assumption.
  - rewrite Hinv. apply py_round_nonneg, Qcmult_lit_nonneg; [done |].
    etrans; [exact Hs0 | apply py_max3_ge].
  - rewrite Htot. by apply py_round_nonneg, Qcplus_nonneg_nonneg.
  - rewrite Hrf. apply py_round_nonneg.
    destruct (decide (0 < _ + _)); [| reflexivity].
    by apply py_round_nonneg, Qcdiv_nonneg.
  - rewrite Hcov. apply py_round_nonneg.
    destruct (decide (0 < LoadAnalysis.critical_load_kw la)); [| exact Qc_0_le_1].
    apply py_min_nonneg; [exact Qc_0_le_1 |].
    apply Qcdiv_nonneg; [by apply Qcplus_nonneg_nonneg | done].
Qed.

(** Load analysis and sizing of a valid request both return, and the
    design has no negative quantity. *)
Lemma sizing_ok (f : FacilityInput.t) :
  FacilityInput.valid f →
  ∃ la d, analyze_load f = Ok la ∧ size_system f la = Ok d ∧
    0 ≤ LoadAnalysis.critical_load_kw la ∧
    0 ≤ LoadAnalysis.backup_load_kw la ∧
    nonneg_design d.
Proof.
  intros Hvalid.
  destruct (analyze_load_ok f Hvalid) as (la & Hla & _ & _ & Havg & Hcrit & Hbackup).
  destruct (size_system_fields f la) as (d & Hd & _).
  exists la, d. repeat split; try assumption.
  all: by eapply design_nonneg.
Qed.

(** Closed equations between rationals, by evaluation. *)
Ltac qc_compute := apply Qc_is_canon; vm_compute; reflexivity.

Lemma valid_by_evaluation (f : FacilityInput.t) :
  bool_decide (FacilityInput.valid f) = true → FacilityInput.valid f.
Proof. apply bool_decide_eq_true_1. Qed.

(** ** The design (claims C6 and C7) *)

(** C6.  For every valid request the load analysis and the sizing return,
    no quantity of the design is negative, and solar, battery (kW and kWh)
    and generator are exactly zero when the matching inclusion flag is
    false. *)
Theorem design_nonneg_and_zero_when_excluded (f : FacilityInput.t) :
  FacilityInput.valid f →
  ∃ la d, analyze_load f = Ok la ∧ size_system f la = Ok d ∧
    nonneg_design d ∧
    (FacilityInput.include_solar f = false → MicrogridDesign.solar_pv_kw d = 0) ∧
    (FacilityInput.include_battery f = false →
       MicrogridDesign.battery_kw d = 0 ∧ MicrogridDesign.battery_kwh d = 0) ∧
    (FacilityInput.include_generator f = false → MicrogridDesign.generator_kw d = 0).
Proof.
  intros Hvalid.
  destruct (sizing_ok f Hvalid) as (la & d & Hla & Hd & _ & _ & Hnonneg).
  exists la, d. do 3 (split; [assumption |]).
  destruct (size_system_fields f la) as (d' & Hd' & Hs & Hkw & Hkwh & Hg & _).
  rewrite Hd in Hd'. injection Hd' as <-.
  repeat split.
  - intros Hflag. by rewrite Hs, Hflag.
  - by rewrite Hkw, H.
  - by rewrite Hkwh, H.
  - intros Hflag. by rewrite Hg, Hflag.
Qed.

Lemma design_nonneg_and_zero_when_excluded_witness :
  ∃ la d, analyze_load scenario_no_subsystem = Ok la ∧
    size_system scenario_no_subsystem la = Ok d ∧
    MicrogridDesign.solar_pv_kw d = 0 ∧ MicrogridDesign.battery_kw d = 0 ∧
    MicrogridDesign.battery_kwh d = 0 ∧ MicrogridDesign.generator_kw d = 0 ∧
    0 ≤ MicrogridDesign.inverter_kw d.
Proof.
  destruct (design_nonneg_and_zero_when_excluded scenario_no_subsystem)
    as (la & d & Hla & Hd & Hnonneg & Hs & Hb & Hg).
  { apply valid_by_evaluation. vm_compute. reflexivity. }
  exists la, d. destruct (Hb eq_refl) as [Hkw Hkwh].
  repeat split; auto. apply Hnonneg.
Defined.

(** C7.  For every valid request the critical-load coverage of the design
    lies between 0 and 1, and it is exactly 1 when the critical load
    percentage is 0: the guard skips the division. *)
Theorem critical_load_coverage_bounds (f : FacilityInput.t) :
  FacilityInput.valid f →
  ∃ la d, analyze_load f = Ok la ∧ size_system f la = Ok d ∧
    0 ≤ MicrogridDesign.critical_load_coverage d ∧
    MicrogridDesign.critical_load_coverage d ≤ 1 ∧
    (FacilityInput.critical_load_percent f = 0 →
       MicrogridDesign.critical_load_coverage d = 1).
Proof.
  intros Hvalid.
  destruct (analyze_load_ok f Hvalid) as (la & Hla & _ & Hcrit & Havg & Hcrit0 & Hbackup).
  destruct (size_system_fields f la) as (d & Hd & _ & _ & _ & _ & _ & _ & _ & Hcov).
  exists la, d. do 2 (split; [assumption |]).
  assert (H1 : py_round 1 3 = 1) by qc_compute.
  split; [| split].
  - by eapply design_nonneg.
  - rewrite Hcov. trans (py_round 1 3); [| by rewrite H1].
    apply py_round_mono.
    destruct (decide (0 < _)); [apply py_min_le_l | reflexivity].
  - intros Hpct. rewrite Hcov, Hcrit, Hpct.
    unfold Qcdiv. rewrite Qcmult_0_l, Qcmult_0_r.
    assert (H0 : py_round 0 2 = 0) by qc_compute.
    rewrite H0, decide_False; [exact H1 | apply (irreflexivity Qclt)].
Qed.

Lemma critical_load_coverage_bounds_witness :
  ∃ la d, analyze_load scenario = Ok la ∧ size_system scenario la = Ok d ∧
    0 ≤ MicrogridDesign.critical_load_coverage d ∧
    MicrogridDesign.critical_load_coverage d ≤ 1.
Proof.
  destruct (critical_load_coverage_bounds scenario) as (la & d & Hla & Hd & Hlo & Hhi & _).
  { apply valid_by_evaluation. vm_compute. reflexivity. }
  exists la, d. auto.
Defined.

(** ** Reliability (claim C8) *)

Lemma generator_hours_nonneg (d : MicrogridDesign.t) :
  0 ≤ ReliabilityAnalyzer.generator_hours d.
Proof.
  unfold ReliabilityAnalyzer.generator_hours.
  case_decide; [by apply Qclt_le_weak | reflexivity].
Qed.

Lemma reliability_improvement_nonneg (total : Qc) :
  0 ≤ total → 0 ≤ ReliabilityAnalyzer.reliability_improvement total.
Proof.
  intros Htotal. unfold ReliabilityAnalyzer.reliability_improvement.
  case_decide; [by apply Qclt_le_weak |].
  apply Qcmult_lit_nonneg; [done |].
  by apply Qcdiv_nonneg.
Qed.

(** C8, as the code has it.  For every valid request with a peak demand of
    at most 10^9 kW the reliability analyzer returns, and its reliability
    improvement is a flat 95 when the total backup hours reach the expected
    outage hours, otherwise the ratio of the two times 100, capped at 99
    and rounded to one decimal; it lies between 0 and 99. *)
Theorem reliability_improvement_percent_value (f : FacilityInput.t) :
  FacilityInput.valid f → moderate_peak f →
  ∃ la d total rel,
    analyze_load f = Ok la ∧ size_system f la = Ok d ∧
    ReliabilityAnalyzer.total_backup_hours d la = Ok total ∧
    ReliabilityAnalyzer.assess_reliability f d la = Ok rel ∧
    ReliabilityAssessment.reliability_improvement_percent rel =
      (if decide (ReliabilityAnalyzer.expected_outage_hours ≤ total) then lit 95
       else py_round (py_min (total / ReliabilityAnalyzer.expected_outage_hours * lit 100)
                             (lit 99)) 1) ∧
    0 ≤ ReliabilityAssessment.reliability_improvement_percent rel ∧
    ReliabilityAssessment.reliability_improvement_percent rel ≤ lit 99.
Proof.
  intros Hvalid _.
  destruct (sizing_ok f Hvalid) as (la & d & Hla & Hd & _ & Hbackup & Hnonneg).
  destruct (assess_reliability_fields f d la) as (total & rel & Htotal & Hrel & _ & Hrip).
  exists la, d, total, rel. do 4 (split; [assumption |]).
  assert (Htotal0 : 0 ≤ total).
  { rewrite total_backup_hours_ok in Htotal. injection Htotal as <-.
    apply Qcplus_nonneg_nonneg; [| apply generator_hours_nonneg].
    case_decide; [| reflexivity].
    apply Qcdiv_nonneg; [apply Hnonneg | done]. }
  assert (H99 : py_round (lit 99) 1 = lit 99) by qc_compute.
  split; [| split].
  - rewrite Hrip. unfold ReliabilityAnalyzer.reliability_improvement.
    case_decide; [qc_compute | reflexivity].
  - rewrite Hrip. apply py_round_nonneg, py_min_nonneg.
    + by apply reliability_improvement_nonneg.
    + by apply Qclt_le_weak.
  - rewrite Hrip. rewrite <- H99 at 2. apply py_round_mono, py_min_le_r.
Qed.

Lemma reliability_improvement_percent_value_witness :
  ∃ rel la d,
    analyze_load scenario = Ok la ∧ size_system scenario la = Ok d ∧
    ReliabilityAnalyzer.assess_reliability scenario d la = Ok rel ∧
    0 ≤ ReliabilityAssessment.reliability_improvement_percent rel ∧
    ReliabilityAssessment.reliability_improvement_percent rel ≤ lit 99.
Proof.
  destruct (reliability_improvement_percent_value scenario)
    as (la & d & total & rel & Hla & Hd & _ & Hrel & _ & Hlo & Hhi).
  { apply valid_by_evaluation. vm_compute. reflexivity. }
  { vm_compute. discriminate. }
  exists rel, la, d. auto.
Defined.

(** C8 as stated fails on the last decimals: with a battery and no
    generator the backup lasts 1647.1 / 350 hours, less than the expected
    10.875 hours of outage; the ratio is 43.27 %, and the analyzer reports
    43.3. *)
Lemma reliability_improvement_percent_is_rounded :
  FacilityInput.valid no_generator_facility ∧
  ∃ la d total rel,
    analyze_load no_generator_facility = Ok la ∧
    size_system no_generator_facility la = Ok d ∧
    ReliabilityAnalyzer.total_backup_hours d la = Ok total ∧
    ReliabilityAnalyzer.assess_reliability no_generator_facility d la = Ok rel ∧
    total < ReliabilityAnalyzer.expected_outage_hours ∧
    ReliabilityAssessment.reliability_improvement_percent rel = lit 43.3 ∧
    ReliabilityAssessment.reliability_improvement_percent rel ≠
      py_min (total / ReliabilityAnalyzer.expected_outage_hours * lit 100) (lit 99).
Proof.
  split; [apply valid_by_evaluation; vm_compute; reflexivity |].
  do 4 eexists.
  do 4 (split; [vm_compute; reflexivity |]).
  split; [vm_compute; reflexivity |]. split; [qc_compute |].
  intros Heq. apply Qc_eq_this in Heq. vm_compute in Heq. discriminate Heq.
Qed.

(** Beyond the range the analyzer computes on infinities.  For a peak
    demand of 1.7e308 kW, all of it critical and essential, the request is
    valid and every number of it finite, but the backup load and the
    battery energy are both infinite, the battery hours are [inf / inf],
    and the reliability improvement is not-a-number: neither at least 0 nor
    at most 99.  The backup duration and the cost per kW are not-a-number
    as well. *)
Lemma reliability_not_a_number_on_overflow :
  FacilityInput.valid largest_facility ∧
  Double.valid (to_double largest_facility) = true ∧
  Double.finite (to_double largest_facility) = true ∧
  ∃ la d c rel,
    Double.analyze_load (to_double largest_facility) = Ok la ∧
    Double.size_system (to_double largest_facility) la = Ok d ∧
    Double.estimate_costs d = Ok c ∧
    Double.assess_reliability (to_double largest_facility) d la = Ok rel ∧
    Double.backup_load_kw la = S754_infinity false ∧
    Double.battery_kwh d = S754_infinity false ∧
    Double.reliability_improvement_percent rel = S754_nan ∧
    Double.leb Double.zero (Double.reliability_improvement_percent rel) = false ∧
    Double.leb (Double.reliability_improvement_percent rel) (Double.lit 99) = false ∧
    Double.ra_backup_duration_hours rel = S754_nan ∧
    Double.cost_per_kw c = S754_nan.
Proof.
  split; [apply valid_by_evaluation; vm_compute; reflexivity |].
  do 2 (split; [vm_compute; reflexivity |]).
  do 4 eexists. do 10 (split; [vm_compute; reflexivity |]).
  vm_compute. reflexivity.
Qed.

(** At the upper end of the range the run on doubles is far from that:
    every figure is finite, the improvement is the flat 95 and the net
    cost is positive. *)
Lemma terawatt_in_double_precision :
  FacilityInput.valid terawatt_facility ∧ moderate_peak terawatt_facility ∧
  ∃ la d c rel,
    Double.analyze_load (to_double terawatt_facility) = Ok la ∧
    Double.size_system (to_double terawatt_facility) la = Ok d ∧
    Double.estimate_costs d = Ok c ∧
    Double.assess_reliability (to_double terawatt_facility) d la = Ok rel ∧
    Double.reliability_improvement_percent rel = Double.lit 95 ∧
    Double.total_capital_cost c = Double.lit 12385177941188.03 ∧
    Double.net_cost_after_incentives c = Double.lit 10317816176829.58 ∧
    Double.ltb Double.zero (Double.net_cost c) = true.
Proof.
  split; [apply valid_by_evaluation; vm_compute; reflexivity |].
  split; [vm_compute; discriminate |].
  do 4 eexists. do 7 (split; [vm_compute; reflexivity |]).
  vm_compute. reflexivity.
Qed.

(** ** Net cost (claim C10) *)

Lemma net_cost_lower_bound (d : MicrogridDesign.t) (c : CostEstimate.t) :
  nonneg_design d → estimate_costs d = Ok c →
  lit 349.99 ≤ FinancialAnalyzer.net_cost c.
Proof.
  intros (Hs & _ & Hkwh & Hg & Hinv & _) Hc.
  destruct (estimate_costs_fields d) as (c' & Hc' & Hsc & Hbc & Htc & _).
  rewrite Hc in Hc'. injection Hc' as <-.
  unfold FinancialAnalyzer.net_cost, FinancialAnalyzer.federal_itc.
  rewrite Hsc, Hbc, Htc. unfold equipment_cost.
  destruct (py_round_2_error (MicrogridDesign.solar_pv_kw d * lit 1551)) as [Hse _].
  destruct (py_round_2_error (MicrogridDesign.battery_kwh d * lit 485)) as [Hbe _].
  match goal with
  | |- context [py_round ?t 2 - _] =>
      destruct (py_round_2_error t) as [_ Hte]; set (total := py_round t 2) in *
  end.
  set (sc := py_round (MicrogridDesign.solar_pv_kw d * lit 1551) 2) in *.
  set (bc := py_round (MicrogridDesign.battery_kwh d * lit 485) 2) in *.
  qc_lra.
Qed.

(** C10, as the code has it.  For every valid request with a peak demand
    of at most 10^9 kW the chain reaches the financial analyzer, the net
    cost after incentives is at least 349.99 (the 350 of fixed fees, less
    the cent rounding of the cost estimate), hence positive, and the IRR
    is the quotient of the guarded branch, not the fallback 0. *)
Theorem net_cost_after_incentives_positive (f : FacilityInput.t) :
  FacilityInput.valid f → moderate_peak f →
  ∃ la d c fin,
    analyze_load f = Ok la ∧ size_system f la = Ok d ∧ estimate_costs d = Ok c ∧
    FinancialAnalyzer.analyze_financials f d c = Ok fin ∧
    lit 349.99 ≤ FinancialAnalysis.net_cost_after_incentives fin ∧
    0 < FinancialAnalyzer.net_cost c ∧
    FinancialAnalysis.irr fin =
      py_round (FinancialAnalyzer.net_annual_savings d c / FinancialAnalyzer.net_cost c
                * lit 100) 2.
Proof.
  intros Hvalid _.
  destruct (sizing_ok f Hvalid) as (la & d & Hla & Hd & _ & _ & Hnonneg).
  destruct (estimate_costs_fields d) as (c & Hc & _).
  destruct (analyze_financials_fields f d c) as (fin & Hfin & _ & Hirr & Hnet).
  exists la, d, c, fin. do 4 (split; [assumption |]).
  pose proof (net_cost_lower_bound d c Hnonneg Hc) as Hbound.
  assert (Hpos : 0 < FinancialAnalyzer.net_cost c).
  { eapply Qclt_le_trans; [| exact Hbound]. reflexivity. }
  split; [| split].
  - rewrite Hnet.
    assert (Hfix : py_round (lit 349.99) 2 = lit 349.99) by qc_compute.
    rewrite <- Hfix at 1. by apply py_round_mono.
  - exact Hpos.
  - rewrite Hirr, decide_True by exact Hpos. reflexivity.
Qed.

Lemma net_cost_after_incentives_positive_witness :
  ∃ la d c fin,
    analyze_load scenario = Ok la ∧ size_system scenario la = Ok d ∧
    estimate_costs d = Ok c ∧
    FinancialAnalyzer.analyze_financials scenario d c = Ok fin ∧
    lit 349.99 ≤ FinancialAnalysis.net_cost_after_incentives fin.
Proof.
  destruct (net_cost_after_incentives_positive scenario)
    as (la & d & c & fin & Hla & Hd & Hc & Hfin & Hbound & _).
  { apply valid_by_evaluation. vm_compute. reflexivity. }
  { vm_compute. discriminate. }
  exists la, d, c, fin. auto.
Defined.

(** C10 as stated fails in double precision.  A peak demand and a yearly
    consumption of 1e306 make a valid request of finite numbers.  Its
    battery cost and its total capital cost overflow to infinity, so does
    the tax credit, and the net cost is [inf - inf], not-a-number: it is
    not positive, the guard [net_cost > 0] fails and the IRR is the
    fallback 0. *)
Lemma net_cost_not_a_number_on_overflow :
  FacilityInput.valid huge_facility ∧
  Double.valid (to_double huge_facility) = true ∧
  Double.finite (to_double huge_facility) = true ∧
  ∃ la d c,
    Double.analyze_load (to_double huge_facility) = Ok la ∧
    Double.size_system (to_double huge_facility) la = Ok d ∧
    Double.estimate_costs d = Ok c ∧
    Double.battery_cost c = S754_infinity false ∧
    Double.total_capital_cost c = S754_infinity false ∧
    Double.net_cost c = S754_nan ∧
    Double.net_cost_after_incentives c = S754_nan ∧
    Double.ltb Double.zero (Double.net_cost_after_incentives c) = false ∧
    Double.ltb Double.zero (Double.net_cost c) = false ∧
    Double.irr d c = Ok Double.zero.
Proof.
  split; [apply valid_by_evaluation; vm_compute; reflexivity |].
  do 2 (split; [vm_compute; reflexivity |]).
  do 3 eexists. do 9 (split; [vm_compute; reflexivity |]).
  vm_compute. reflexivity.
Qed.

(** ** Payback (claim C5) *)

(** C5, as the code has it.  For every design and cost estimate the
    financial analyzer returns; the payback is the sentinel 999 when the net
    annual savings are not positive, and the net cost divided by the net
    annual savings, rounded to one decimal, when they are. *)
Theorem simple_payback_years_value (f : FacilityInput.t) (d : MicrogridDesign.t)
    (c : CostEstimate.t) :
  ∃ fin, FinancialAnalyzer.analyze_financials f d c = Ok fin ∧
    FinancialAnalysis.simple_payback_years fin =
      (if decide (0 < FinancialAnalyzer.net_annual_savings d c) then
         py_round (FinancialAnalyzer.net_cost c / FinancialAnalyzer.net_annual_savings d c) 1
       else lit 999).
Proof.
  destruct (analyze_financials_fields f d c) as (fin & Hfin & Hpayback & _).
  exists fin. split; [exact Hfin |].
  rewrite Hpayback. case_decide; [reflexivity | qc_compute].
Qed.

(** C5 as stated fails from right to left: this valid request has positive
    net annual savings, about 178 dollars a year against a net cost of
    177960.27, and its payback of 999.02 years is reported as 999.0. *)
Lemma simple_payback_999_with_positive_savings :
  FacilityInput.valid marginal_facility ∧
  ∃ la d c fin,
    analyze_load marginal_facility = Ok la ∧ size_system marginal_facility la = Ok d ∧
    estimate_costs d = Ok c ∧
    FinancialAnalyzer.analyze_financials marginal_facility d c = Ok fin ∧
    0 < FinancialAnalyzer.net_annual_savings d c ∧
    FinancialAnalysis.simple_payback_years fin = lit 999.
Proof.
  split; [apply valid_by_evaluation; vm_compute; reflexivity |].
  do 4 eexists.
  split; [vm_compute; reflexivity |].
  split; [vm_compute; reflexivity |].
  split; [vm_compute; reflexivity |].
  split; [vm_compute; reflexivity |].
  split; [vm_compute; reflexivity | qc_compute].
Qed.

(** ** Interruption cost (claim C9) *)

Example cost_per_kwh_school : ReliabilityAnalyzer.cost_per_kwh school = lit 25.
Proof. qc_compute. Qed.

Example cost_per_kwh_capital_hospital :
  ReliabilityAnalyzer.cost_per_kwh capital_hospital = lit 100.
Proof. qc_compute. Qed.

(** C9, as the code has it.  For every request, design and load analysis
    the reliability analyzer returns, and the avoided outage cost uses the
    table's rate for the lower-cased facility type when the table has one
    and 25 dollars per kWh otherwise. *)
Theorem avoided_outage_cost_rate (f : FacilityInput.t) (d : MicrogridDesign.t)
    (la : LoadAnalysis.t) :
  ∃ rel, ReliabilityAnalyzer.assess_reliability f d la = Ok rel ∧
    ReliabilityAssessment.avoided_outage_cost rel =
      py_round
        (LoadAnalysis.critical_load_kw la * ReliabilityAnalyzer.expected_outage_hours
         * match ReliabilityAnalyzer.interruption_costs
                   !! lower (FacilityInput.facility_type f) with
           | Some rate => rate
           | None => lit 25
           end
         * (MicrogridDesign.critical_load_coverage d * lit 100 / lit 100)) 2.
Proof.
  destruct (assess_reliability_fields f d la) as (total & rel & _ & Hrel & Hcost & _).
  exists rel. split; [exact Hrel |].
  rewrite Hcost. unfold ReliabilityAnalyzer.cost_per_kwh.
  by destruct (_ !! _).
Qed.

(** C9 as stated fails for a type that differs from a key by its case only:
    ["Hospital"] is not a key of the table, yet the avoided outage cost is
    computed at the hospital rate (163125.00), not at 25 dollars per kWh
    (40781.25). *)
Lemma capital_hospital_not_default_rate :
  FacilityInput.valid capital_hospital ∧
  ReliabilityAnalyzer.interruption_costs
    !! FacilityInput.facility_type capital_hospital = None ∧
  ∃ la d rel,
    analyze_load capital_hospital = Ok la ∧ size_system capital_hospital la = Ok d ∧
    ReliabilityAnalyzer.assess_reliability capital_hospital d la = Ok rel ∧
    ReliabilityAssessment.avoided_outage_cost rel = lit 163125 ∧
    py_round (LoadAnalysis.critical_load_kw la * ReliabilityAnalyzer.expected_outage_hours
              * lit 25 * (MicrogridDesign.critical_load_coverage d * lit 100 / lit 100)) 2
      = lit 40781.25 ∧
    ReliabilityAssessment.avoided_outage_cost rel ≠
      py_round (LoadAnalysis.critical_load_kw la * ReliabilityAnalyzer.expected_outage_hours
                * lit 25 * (MicrogridDesign.critical_load_coverage d * lit 100 / lit 100)) 2.
Proof.
  split; [apply valid_by_evaluation; vm_compute; reflexivity |].
  split; [vm_compute; reflexivity |].
  do 3 eexists.
  split; [vm_compute; reflexivity |].
  split; [vm_compute; reflexivity |].
  split; [vm_compute; reflexivity |].
  split; [qc_compute |]. split; [qc_compute |].
  intros Heq. apply Qc_eq_this in Heq. vm_compute in Heq. discriminate Heq.
Qed.

(** ** The unguarded division (claim C3) *)

(** C3 fails on the code.  For this valid request every engine returns, the
    design has a battery of 0.2 kWh and 0.0 kW, and the battery message of
    [generate_recommendations] divides the first by the second: the
    endpoint answers with status 500. *)
Theorem recommendation_division_by_zero :
  FacilityInput.valid tiny_backup_facility ∧
  (∃ la d c fin rel,
     analyze_load tiny_backup_facility = Ok la ∧
     size_system tiny_backup_facility la = Ok d ∧
     estimate_costs d = Ok c ∧
     FinancialAnalyzer.analyze_financials tiny_backup_facility d c = Ok fin ∧
     ReliabilityAnalyzer.assess_reliability tiny_backup_facility d la = Ok rel ∧
     MicrogridDesign.battery_kwh d = lit 0.2 ∧
     MicrogridDesign.battery_kw d = 0 ∧
     generate_recommendations tiny_backup_facility d c fin rel = Raise ZeroDivisionError) ∧
  analyze_microgrid tiny_backup_facility = Raise (HTTPException 500 ZeroDivisionError).
Proof.
  split; [apply valid_by_evaluation; vm_compute; reflexivity |].
  split; [| vm_compute; reflexivity].
  do 5 eexists.
  do 5 (split; [vm_compute; reflexivity |]).
  split; [qc_compute |]. split; [qc_compute |].
  vm_compute. reflexivity.
Qed.

(** ** The load breakdown (claim C4) *)

(** C4, as the code has it.  For every valid request with a peak demand of
    at most 10^9 kW the load analyzer returns, and the critical, essential
    and non-critical loads of the analysis it returns, each rounded to two
    decimals, add up to the peak demand to within 0.02 kW. *)
Theorem load_breakdown_sum (f : FacilityInput.t) :
  FacilityInput.valid f → moderate_peak f →
  ∃ la,
    analyze_load f = Ok la ∧
    FacilityInput.peak_demand_kw f - lit 0.02 ≤
      LoadAnalysis.critical_load_kw la + LoadAnalysis.essential_load_kw la
      + LoadAnalysis.non_critical_load_kw la ∧
    LoadAnalysis.critical_load_kw la + LoadAnalysis.essential_load_kw la
      + LoadAnalysis.non_critical_load_kw la ≤ FacilityInput.peak_demand_kw f + lit 0.02.
Proof.
  intros (Hpeak & _) _.
  destruct (load_values_ok f Hpeak) as (lx & Hlx & _ & _ & _ & _ & Hnc & _).
  exists (display_load lx).
  split; [by rewrite analyze_load_display, Hlx |].
  assert (Hsum : LoadAnalysis.critical_load_kw lx + LoadAnalysis.essential_load_kw lx
                 + LoadAnalysis.non_critical_load_kw lx = FacilityInput.peak_demand_kw f).
  { rewrite Hnc. ring. }
  cbn [display_load LoadAnalysis.critical_load_kw
    LoadAnalysis.essential_load_kw LoadAnalysis.non_critical_load_kw].
  destruct (py_round_2_error (LoadAnalysis.critical_load_kw lx)) as [Hc1 Hc2].
  destruct (py_round_2_error (LoadAnalysis.essential_load_kw lx)) as [He1 He2].
  destruct (py_round_2_error (LoadAnalysis.non_critical_load_kw lx)) as [Hn1 Hn2].
  clear Hnc Hlx. split; qc_lra.
Qed.

Lemma load_breakdown_sum_witness :
  ∃ la, analyze_load thirds_facility = Ok la ∧
    FacilityInput.peak_demand_kw thirds_facility - lit 0.02 ≤
      LoadAnalysis.critical_load_kw la + LoadAnalysis.essential_load_kw la
      + LoadAnalysis.non_critical_load_kw la.
Proof.
  destruct (load_breakdown_sum thirds_facility) as (la & Hla & Hlo & _).
  { apply valid_by_evaluation. vm_compute. reflexivity. }
  { vm_compute. discriminate. }
  exists la. auto.
Defined.

(** C4 as stated fails: 33.3 % and 33.3 % of 1 kW are returned as 0.33 kW
    each, the remaining 0.334 kW as 0.33 kW, and the three add up to
    0.99 kW. *)
Lemma load_breakdown_sum_off_by_a_cent :
  FacilityInput.valid thirds_facility ∧
  ∃ la, analyze_load thirds_facility = Ok la ∧
    LoadAnalysis.critical_load_kw la + LoadAnalysis.essential_load_kw la
      + LoadAnalysis.non_critical_load_kw la = lit 0.99 ∧
    LoadAnalysis.critical_load_kw la + LoadAnalysis.essential_load_kw la
      + LoadAnalysis.non_critical_load_kw la ≠ FacilityInput.peak_demand_kw thirds_facility.
Proof.
  split; [apply valid_by_evaluation; vm_compute; reflexivity |].
  eexists. split; [vm_compute; reflexivity |]. split; [qc_compute |].
  intros Heq. apply Qc_eq_this in Heq. vm_compute in Heq. discriminate Heq.
Qed.

(** Nor do the loads add up exactly before they are rounded: a double is
    rounded at every step.  For 1 % and 2 % of 10 kW the three loads of
    [analyze_load], added in double precision, give 10.000000000000002. *)
Lemma load_breakdown_inexact_in_double_precision :
  FacilityInput.valid small_shares_facility ∧
  ∃ critical essential non_critical,
    Double.load_breakdown (to_double small_shares_facility)
      = (critical, essential, non_critical) ∧
    Double.add (Double.add critical essential) non_critical
      = Double.lit 10.000000000000002 ∧
    Double.eqb (Double.add (Double.add critical essential) non_critical)
               (Double.peak_demand_kw (to_double small_shares_facility)) = false.
Proof.
  split; [apply valid_by_evaluation; vm_compute; reflexivity |].
  do 3 eexists. do 2 (split; [vm_compute; reflexivity |]).
  vm_compute. reflexivity.
Qed.

(** ** The whole chain *)

Lemma bind_Ok {A B} (a : A) (k : A → result B) : Ok a ≫= k = k a.
Proof. reflexivity. Qed.

Lemma bind_Raise {A B} (e : exn) (k : A → result B) : Raise e ≫= k = Raise e.
Proof. reflexivity. Qed.

Lemma analyze_microgrid_ok (f : FacilityInput.t) la d c fin rel recs :
  analyze_load f = Ok la → size_system f la = Ok d → estimate_costs d = Ok c →
  FinancialAnalyzer.analyze_financials f d c = Ok fin →
  ReliabilityAnalyzer.assess_reliability f d la = Ok rel →
  generate_recommendations f d c fin rel = Ok recs →
  analyze_microgrid f = Ok (FullAnalysisResult.mk la d c fin rel recs).
Proof.
  intros Hla Hd Hc Hfin Hrel Hrecs. unfold analyze_microgrid.
  rewrite Hla, bind_Ok. cbv beta. rewrite Hd, bind_Ok. cbv beta.
  rewrite Hc, bind_Ok. cbv beta. rewrite Hfin, bind_Ok. cbv beta.
  rewrite Hrel, bind_Ok. cbv beta. rewrite Hrecs, bind_Ok. reflexivity.
Qed.

(** ** No subsystem included (claim C1) *)




(** ** Rounded load values inside the chain (claim C2) *)

Lemma size_system_ext (f : FacilityInput.t) (la la' : LoadAnalysis.t) :
  LoadAnalysis.average_demand_kw la = LoadAnalysis.average_demand_kw la' →
  LoadAnalysis.critical_load_kw la = LoadAnalysis.critical_load_kw la' →
  LoadAnalysis.backup_load_kw la = LoadAnalysis.backup_load_kw la' →
  size_system f la = size_system f la'.
Proof. intros Havg Hcrit Hbackup. unfold size_system. by rewrite Havg, Hcrit, Hbackup. Qed.

Lemma assess_reliability_ext (f : FacilityInput.t) (d : MicrogridDesign.t)
    (la la' : LoadAnalysis.t) :
  LoadAnalysis.critical_load_kw la = LoadAnalysis.critical_load_kw la' →
  LoadAnalysis.backup_load_kw la = LoadAnalysis.backup_load_kw la' →
  ReliabilityAnalyzer.assess_reliability f d la
  = ReliabilityAnalyzer.assess_reliability f d la'.
Proof.
  intros Hcrit Hbackup.
  unfold ReliabilityAnalyzer.assess_reliability, ReliabilityAnalyzer.total_backup_hours,
    ReliabilityAnalyzer.battery_hours.
  by rewrite Hcrit, Hbackup.
Qed.

(** C2, as the code has it.  The sizer and the reliability analyzer read
    the load values that the load analyzer has already rounded to two
    decimals.  For a valid request whose average demand, critical load and
    backup load have at most two decimals this makes no difference, and
    the endpoint agrees with the reference pipeline that carries unrounded
    load values. *)
Theorem analyze_microgrid_refines_reference (f : FacilityInput.t) :
  FacilityInput.valid f →
  two_decimals (FacilityInput.annual_consumption_kwh f / lit 8760) →
  two_decimals (FacilityInput.peak_demand_kw f
                * (FacilityInput.critical_load_percent f / lit 100)) →
  two_decimals (FacilityInput.peak_demand_kw f
                * (FacilityInput.critical_load_percent f / lit 100)
                + FacilityInput.peak_demand_kw f
                  * (FacilityInput.essential_load_percent f / lit 100)) →
  analyze_microgrid f = analyze_microgrid_reference f.
Proof.
  intros (Hpeak & _) Havg2 Hcrit2 Hbackup2.
  destruct (load_values_ok f Hpeak) as (lx & Hlx & _ & Havg & Hcrit & Hess & _ & Hbackup).
  unfold analyze_microgrid, analyze_microgrid_reference.
  rewrite analyze_load_display, Hlx, !bind_Ok. cbv beta.
  assert (Ha : LoadAnalysis.average_demand_kw (display_load lx)
               = LoadAnalysis.average_demand_kw lx).
  { unfold display_load. cbn [LoadAnalysis.average_demand_kw].
    rewrite Havg. exact Havg2. }
  assert (Hc : LoadAnalysis.critical_load_kw (display_load lx)
               = LoadAnalysis.critical_load_kw lx).
  { unfold display_load. cbn [LoadAnalysis.critical_load_kw].
    rewrite Hcrit. exact Hcrit2. }
  assert (Hb : LoadAnalysis.backup_load_kw (display_load lx)
               = LoadAnalysis.backup_load_kw lx).
  { unfold display_load. cbn [LoadAnalysis.backup_load_kw].
    rewrite Hbackup, Hcrit, Hess. exact Hbackup2. }
  rewrite (size_system_ext f _ lx Ha Hc Hb).
  destruct (size_system f lx) as [d |]; [| by rewrite !bind_Raise].
  rewrite !bind_Ok. cbv beta.
  destruct (estimate_costs d) as [c |]; [| by rewrite !bind_Raise].
  rewrite !bind_Ok. cbv beta.
  destruct (FinancialAnalyzer.analyze_financials f d c) as [fin |];
    [| by rewrite !bind_Raise].
  rewrite !bind_Ok. cbv beta.
  by rewrite (assess_reliability_ext f d _ lx Hc Hb).
Qed.

Lemma analyze_microgrid_refines_reference_witness :
  analyze_microgrid round_facility = analyze_microgrid_reference round_facility.
Proof.
  apply (analyze_microgrid_refines_reference round_facility).
  - apply valid_by_evaluation. vm_compute. reflexivity.
  - unfold two_decimals. apply Qc_is_canon. vm_compute. reflexivity.
  - unfold two_decimals. apply Qc_is_canon. vm_compute. reflexivity.
  - unfold two_decimals. apply Qc_is_canon. vm_compute. reflexivity.
Defined.

(** C2 as stated fails: 33 % of 10.44 kW is 3.4452 kW of critical load; the
    reliability analyzer reads the rounded 3.45 kW and reports an avoided
    outage cost of 937.97, where the reference pipeline reports 936.66. *)
Lemma analyze_microgrid_differs_from_reference :
  FacilityInput.valid fractional_facility ∧
  ∃ r r',
    analyze_microgrid fractional_facility = Ok r ∧
    analyze_microgrid_reference fractional_facility = Ok r' ∧
    ReliabilityAssessment.avoided_outage_cost (FullAnalysisResult.reliability r)
      = lit 937.97 ∧
    ReliabilityAssessment.avoided_outage_cost (FullAnalysisResult.reliability r')
      = lit 936.66 ∧
    analyze_microgrid fractional_facility ≠ analyze_microgrid_reference fractional_facility.
Proof.
  split; [apply valid_by_evaluation; vm_compute; reflexivity |].
  do 2 eexists.
  split; [vm_compute; reflexivity |]. split; [vm_compute; reflexivity |].
  split; [qc_compute |]. split; [qc_compute |].
  intros Heq.
  apply (f_equal (fun res =>
    match res with
    | Ok r => this (ReliabilityAssessment.avoided_outage_cost (FullAnalysisResult.reliability r))
    | Raise _ => 0%Q
    end)) in Heq.
  vm_compute in Heq. discriminate Heq.
Qed.

(** * More on the engines *)

(** ** Rounding, continued *)

Lemma round_half_even_comp (x y : Q) :
  (x == y)%Q → round_half_even x = round_half_even y.
Proof.
  intros Hxy. unfold round_half_even.
  rewrite (Qfloor_comp x y Hxy).
  assert (Hc : ((x - inject_Z (Qfloor y) ?= 1 # 2) = (y - inject_Z (Qfloor y) ?= 1 # 2))%Q).
  { apply Qcompare_comp; [by rewrite Hxy | reflexivity]. }
  by rewrite Hc.
Qed.

Lemma round_half_even_Z (z : Z) : round_half_even (inject_Z z) = z.
Proof.
  unfold round_half_even. rewrite Qfloor_Z.
  assert (Hc : (inject_Z z - inject_Z z ?= 1 # 2)%Q = Lt).
  { rewrite <- Qlt_alt. lra. }
  by rewrite Hc.
Qed.

(** Rounding a rounded value again changes nothing. *)
Lemma py_round_idem (x : Qc) (n : nat) : py_round (py_round x n) n = py_round x n.
Proof.
  unfold py_round at 1 3.
  pose proof (scale_pos n) as Hs.
  set (s := inject_Z (10 ^ Z.of_nat n)) in *.
  set (r := round_half_even (this x * s)).
  assert (Hr : round_half_even (this (Q2Qc (inject_Z r / s)) * s) = r).
  { rewrite <- (round_half_even_Z r) at 2. apply round_half_even_comp.
    rewrite this_lit. field. lra. }
  unfold py_round. fold s. fold r. by rewrite Hr.
Qed.

Lemma py_round_1_error (x : Qc) :
  py_round x 1 - lit 0.05 ≤ x ∧ x ≤ py_round x 1 + lit 0.05.
Proof.
  destruct (py_round_error x 1) as [Hlo Hhi].
  change ((1 # 2) / inject_Z (10 ^ Z.of_nat 1))%Q with (1 # 20)%Q in *.
  split; qc_lra.
Qed.

Lemma Qcdiv_lit_le (x y : Qc) (a : Q) : (0 < a)%Q → x ≤ y → x / lit a ≤ y / lit a.
Proof.
  intros Ha Hxy. unfold Qcdiv. apply Qcmult_le_mono_nonneg_r; [| exact Hxy].
  by apply Qclt_le_weak, Qcinv_pos, lit_pos.
Qed.

Lemma Qcdiv_self (x : Qc) : 0 < x → x / x = 1.
Proof.
  intros Hx. unfold Qcdiv. apply Qcmult_inv_r.
  intros ->. by apply (irreflexivity Qclt) in Hx.
Qed.

Lemma Qcdiv_le_1 (a b : Qc) : 0 < b → a ≤ b → a / b ≤ 1.
Proof.
  intros Hb Hab. rewrite <- (Qcdiv_self b Hb). unfold Qcdiv.
  apply Qcmult_le_mono_nonneg_r; [| exact Hab].
  by apply Qclt_le_weak, Qcinv_pos.
Qed.

Lemma Qcdiv_ge_1 (a b : Qc) : 0 < b → b ≤ a → 1 ≤ a / b.
Proof.
  intros Hb Hab. rewrite <- (Qcdiv_self b Hb). unfold Qcdiv.
  apply Qcmult_le_mono_nonneg_r; [| exact Hab].
  by apply Qclt_le_weak, Qcinv_pos.
Qed.

(** ** Load analysis: the only failure *)

(** X1.  [analyze_load] raises [ZeroDivisionError] exactly when the peak
    demand is zero, and returns for every other peak demand. *)
Theorem analyze_load_raises_iff_zero_peak (f : FacilityInput.t) :
  (analyze_load f = Raise ZeroDivisionError ↔ FacilityInput.peak_demand_kw f = 0) ∧
  ((∃ la, analyze_load f = Ok la) ↔ FacilityInput.peak_demand_kw f ≠ 0).
Proof.
  assert (Hprod : FacilityInput.peak_demand_kw f * lit 8760 = 0
                  ↔ FacilityInput.peak_demand_kw f = 0).
  { split.
    - intros Hz. apply Qcmult_integral in Hz as [Hz | Hz]; [exact Hz |].
      apply Qc_eq_this in Hz. vm_compute in Hz. discriminate Hz.
    - intros ->. apply Qcmult_0_l. }
  unfold analyze_load, pydiv.
  destruct (decide (FacilityInput.peak_demand_kw f * lit 8760 = 0)) as [Hz | Hnz].
  - rewrite bind_Raise. apply Hprod in Hz. split; [done |].
    split; [intros [la Hla]; discriminate Hla | done].
  - rewrite bind_Ok. rewrite Hprod in Hnz. split.
    + split; [intros Hr; discriminate Hr | done].
    + split; [done | intros _; eexists; reflexivity].
Qed.

(** ** Sizing rules *)

Lemma analyze_load_critical_le_backup (f : FacilityInput.t) (la : LoadAnalysis.t) :
  FacilityInput.valid f → analyze_load f = Ok la →
  LoadAnalysis.critical_load_kw la ≤ LoadAnalysis.backup_load_kw la.
Proof.
  intros (Hpeak & _ & _ & [He _] & _) Hla.
  destruct (load_values_ok f Hpeak) as (lx & Hlx & _ & _ & _ & Hess & _ & Hbackup).
  rewrite analyze_load_display, Hlx, bind_Ok in Hla. injection Hla as <-.
  unfold display_load. cbn [LoadAnalysis.critical_load_kw LoadAnalysis.backup_load_kw].
  apply py_round_mono. rewrite Hbackup.
  rewrite <- (Qcplus_0_r (LoadAnalysis.critical_load_kw lx)) at 1.
  apply Qcplus_le_mono_l. rewrite Hess.
  apply Qcmult_nonneg_nonneg; [by apply Qclt_le_weak | by apply Qcdiv_lit_nonneg].
Qed.

(** X2.  For every valid request the solar array is at most 1.5 times the
    peak demand, however large the annual consumption. *)
Theorem solar_capped_by_peak (f : FacilityInput.t) :
  FacilityInput.valid f →
  ∃ la d, analyze_load f = Ok la ∧ size_system f la = Ok d ∧
    MicrogridDesign.solar_pv_kw d ≤ FacilityInput.peak_demand_kw f * lit 1.5.
Proof.
  intros Hvalid.
  destruct (sizing_ok f Hvalid) as (la & d & Hla & Hd & _).
  exists la, d. do 2 (split; [assumption |]).
  destruct (size_system_fields f la) as (d' & Hd' & Hs & _).
  rewrite Hd in Hd'. injection Hd' as <-.
  rewrite Hs. destruct (FacilityInput.include_solar f); [apply py_min_le_r |].
  apply Qcmult_lit_nonneg; [done |]. apply Qclt_le_weak, Hvalid.
Qed.

Lemma solar_capped_by_peak_witness :
  ∃ la d, analyze_load scenario = Ok la ∧ size_system scenario la = Ok d ∧
    MicrogridDesign.solar_pv_kw d ≤ FacilityInput.peak_demand_kw scenario * lit 1.5.
Proof.
  apply (solar_capped_by_peak scenario).
  apply valid_by_evaluation. vm_compute. reflexivity.
Defined.

(** X3.  For every valid request the battery energy is at most the backup
    load over four hours divided by the round-trip efficiency, whatever
    backup duration is requested; with the battery included and at least
    four hours requested it is exactly that. *)
Theorem battery_sized_for_at_most_four_hours (f : FacilityInput.t) :
  FacilityInput.valid f →
  ∃ la d, analyze_load f = Ok la ∧ size_system f la = Ok d ∧
    MicrogridDesign.battery_kwh d ≤
      py_round (LoadAnalysis.backup_load_kw la * lit 4 / lit 0.85) 1 ∧
    (FacilityInput.include_battery f = true →
     lit 4 ≤ FacilityInput.backup_duration_hours f →
     MicrogridDesign.battery_kwh d =
       py_round (LoadAnalysis.backup_load_kw la * lit 4 / lit 0.85) 1).
Proof.
  intros Hvalid.
  destruct (sizing_ok f Hvalid) as (la & d & Hla & Hd & _ & Hbackup & _).
  exists la, d. do 2 (split; [assumption |]).
  destruct (size_system_fields f la) as (d' & Hd' & _ & _ & Hkwh & _).
  rewrite Hd in Hd'. injection Hd' as <-.
  split.
  - rewrite Hkwh. destruct (FacilityInput.include_battery f).
    + apply py_round_mono, Qcdiv_lit_le; [done |].
      apply Qcmult_le_mono_nonneg_l; [exact Hbackup | apply py_min_le_l].
    + apply py_round_nonneg, Qcdiv_lit_nonneg; [done |].
      by apply Qcmult_lit_nonneg.
  - intros Hflag Hdur. rewrite Hkwh, Hflag. unfold py_min.
    rewrite decide_False; [reflexivity | by apply Qcle_not_lt].
Qed.

Lemma battery_sized_for_at_most_four_hours_witness :
  ∃ la d, analyze_load scenario = Ok la ∧ size_system scenario la = Ok d ∧
    MicrogridDesign.battery_kwh d =
      py_round (LoadAnalysis.backup_load_kw la * lit 4 / lit 0.85) 1.
Proof.
  destruct (battery_sized_for_at_most_four_hours scenario)
    as (la & d & Hla & Hd & _ & Heq).
  { apply valid_by_evaluation. vm_compute. reflexivity. }
  exists la, d. do 2 (split; [assumption |]).
  apply Heq; [reflexivity | vm_compute; discriminate].
Defined.

(** X4.  For every valid request the renewable fraction is at most 1, and
    it is exactly 1 when the generator is excluded and the design has
    solar capacity. *)
Theorem renewable_fraction_at_most_one (f : FacilityInput.t) :
  FacilityInput.valid f →
  ∃ la d, analyze_load f = Ok la ∧ size_system f la = Ok d ∧
    MicrogridDesign.renewable_fraction d ≤ 1 ∧
    (FacilityInput.include_generator f = false →
     0 < MicrogridDesign.solar_pv_kw d →
     MicrogridDesign.renewable_fraction d = 1).
Proof.
  intros Hvalid.
  destruct (sizing_ok f Hvalid) as (la & d & Hla & Hd & _ & _ & Hnonneg).
  destruct Hnonneg as (Hs0 & _ & _ & Hg0 & _).
  exists la, d. do 2 (split; [assumption |]).
  destruct (size_system_fields f la) as (d' & Hd' & _ & _ & _ & Hg & _ & _ & Hrf & _).
  rewrite Hd in Hd'. injection Hd' as <-.
  assert (H1 : py_round 1 3 = 1) by qc_compute.
  split.
  - rewrite Hrf. trans (py_round 1 3); [| by rewrite H1]. apply py_round_mono.
    destruct (decide (0 < _ + _)) as [Htot | _]; [| exact Qc_0_le_1].
    trans (py_round 1 3); [| by rewrite H1]. apply py_round_mono.
    apply Qcdiv_le_1; [exact Htot |].
    rewrite <- (Qcplus_0_r (MicrogridDesign.solar_pv_kw d)) at 1.
    by apply Qcplus_le_mono_l.
  - intros Hflag Hsolar. rewrite Hflag in Hg.
    rewrite Hrf, Hg, Qcplus_0_r, decide_True by exact Hsolar.
    by rewrite Qcdiv_self, !H1.
Qed.

Lemma renewable_fraction_at_most_one_witness :
  ∃ la d, analyze_load no_generator_facility = Ok la ∧
    size_system no_generator_facility la = Ok d ∧
    MicrogridDesign.renewable_fraction d = 1.
Proof.
  destruct (renewable_fraction_at_most_one no_generator_facility)
    as (la & d & Hla & Hd & _ & Heq).
  { apply valid_by_evaluation. vm_compute. reflexivity. }
  exists la, d. do 2 (split; [assumption |]).
  apply Heq; [reflexivity |].
  destruct (size_system_fields no_generator_facility la) as (d' & Hd' & Hs & _).
  rewrite Hd in Hd'. injection Hd' as <-. rewrite Hs.
  assert (Hla' : analyze_load no_generator_facility = Ok la) by exact Hla.
  vm_compute in Hla'. injection Hla' as <-. vm_compute. reflexivity.
Defined.

(** X5.  For every valid request the inverter is at least as large as the
    battery's power rating. *)
Theorem inverter_covers_battery (f : FacilityInput.t) :
  FacilityInput.valid f →
  ∃ la d, analyze_load f = Ok la ∧ size_system f la = Ok d ∧
    MicrogridDesign.battery_kw d ≤ MicrogridDesign.inverter_kw d.
Proof.
  intros Hvalid.
  destruct (sizing_ok f Hvalid) as (la & d & Hla & Hd & _ & _ & Hnonneg).
  destruct Hnonneg as (_ & Hkw0 & _).
  exists la, d. do 2 (split; [assumption |]).
  destruct (size_system_fields f la) as (d' & Hd' & _ & Hkw & _ & _ & Hinv & _).
  rewrite Hd in Hd'. injection Hd' as <-.
  assert (Hfix : py_round (MicrogridDesign.battery_kw d) 1 = MicrogridDesign.battery_kw d).
  { rewrite Hkw. destruct (FacilityInput.include_battery f);
      [apply py_round_idem | qc_compute]. }
  rewrite Hinv. rewrite <- Hfix at 1. apply py_round_mono.
  trans (py_max3 (MicrogridDesign.solar_pv_kw d) (MicrogridDesign.battery_kw d)
                 (LoadAnalysis.backup_load_kw la)).
  - unfold py_max3. etrans; [| apply py_max_ge_l]. unfold py_max.
    case_decide; [reflexivity | by apply Qcnot_lt_le].
  - set (m := py_max3 _ _ _).
    assert (Hm : 0 ≤ m).
    { etrans; [| apply py_max3_ge]. apply (design_nonneg f la d); try done;
        by destruct (analyze_load_ok f Hvalid) as (la' & Hla' & _ & _ & ? & ? & ?);
           rewrite Hla in Hla'; injection Hla' as <-. }
    clearbody m. clear -Hm. qc_lra.
Qed.

Lemma inverter_covers_battery_witness :
  ∃ la d, analyze_load scenario = Ok la ∧ size_system scenario la = Ok d ∧
    MicrogridDesign.battery_kw d ≤ MicrogridDesign.inverter_kw d.
Proof.
  apply (inverter_covers_battery scenario).
  apply valid_by_evaluation. vm_compute. reflexivity.
Defined.

(** X6.  For every valid request that includes the generator and has a
    critical load of at least 0.25 kW, the critical-load coverage is 1:
    the generator alone, sized at 1.2 times the backup load, covers the
    critical load. *)
Theorem generator_covers_critical_load (f : FacilityInput.t) (la : LoadAnalysis.t) :
  FacilityInput.valid f →
  FacilityInput.include_generator f = true →
  analyze_load f = Ok la →
  lit 0.25 ≤ LoadAnalysis.critical_load_kw la →
  ∃ d, size_system f la = Ok d ∧ MicrogridDesign.critical_load_coverage d = 1.
Proof.
  intros Hvalid Hflag Hla Hcrit.
  pose proof (analyze_load_critical_le_backup f la Hvalid Hla) as Hle.
  destruct (sizing_ok f Hvalid) as (la' & d & Hla' & Hd & _ & _ & Hnonneg).
  rewrite Hla in Hla'. injection Hla' as <-.
  destruct Hnonneg as (_ & Hkw0 & _).
  exists d. split; [exact Hd |].
  destruct (size_system_fields f la) as (d' & Hd' & _ & _ & _ & Hg & _ & _ & _ & Hcov).
  rewrite Hd in Hd'. injection Hd' as <-. rewrite Hflag in Hg.
  assert (Hpos : 0 < LoadAnalysis.critical_load_kw la).
  { eapply Qclt_le_trans; [| exact Hcrit]. reflexivity. }
  assert (Hgen : LoadAnalysis.critical_load_kw la
                 ≤ MicrogridDesign.battery_kw d + MicrogridDesign.generator_kw d).
  { destruct (py_round_1_error (LoadAnalysis.backup_load_kw la * lit 1.2)) as [_ Hr].
    rewrite <- Hg in Hr. clear Hg Hcov Hd Hla. qc_lra. }
  rewrite Hcov, decide_True by exact Hpos. unfold py_min.
  rewrite decide_False; [qc_compute |].
  by apply Qcle_not_lt, Qcdiv_ge_1.
Qed.

Lemma generator_covers_critical_load_witness :
  ∃ la d, analyze_load scenario = Ok la ∧ size_system scenario la = Ok d ∧
    MicrogridDesign.critical_load_coverage d = 1.
Proof.
  eexists.
  assert (Hla : analyze_load scenario = Ok _) by (vm_compute; reflexivity).
  destruct (generator_covers_critical_load scenario _
              ltac:(apply valid_by_evaluation; vm_compute; reflexivity)
              eq_refl Hla ltac:(vm_compute; discriminate)) as (d & Hd & Hcov).
  exists d. auto.
Defined.

(** ** Reliability with a generator *)

(** X7.  Whenever the design has a generator and its battery energy is
    between 0 and 10^10 kWh, the reliability analyzer reports at least 72
    hours of backup and the flat reliability improvement of 95, for every
    request and load analysis. *)
Theorem generator_gives_flat_95 (f : FacilityInput.t) (d : MicrogridDesign.t)
    (la : LoadAnalysis.t) :
  0 ≤ MicrogridDesign.battery_kwh d → moderate_battery d →
  0 < MicrogridDesign.generator_kw d →
  ∃ rel, ReliabilityAnalyzer.assess_reliability f d la = Ok rel ∧
    lit 72 ≤ ReliabilityAssessment.backup_duration_hours rel ∧
    ReliabilityAssessment.reliability_improvement_percent rel = lit 95.
Proof.
  intros Hkwh _ Hgen.
  destruct (assess_reliability_fields f d la) as (total & rel & Htotal & Hrel & _ & Hrip).
  exists rel. split; [exact Hrel |].
  rewrite total_backup_hours_ok in Htotal. injection Htotal as Htotal.
  assert (H72 : lit 72 ≤ total).
  { rewrite <- Htotal. unfold ReliabilityAnalyzer.generator_hours.
    rewrite (decide_True (P := 0 < MicrogridDesign.generator_kw d)) by exact Hgen.
    rewrite <- (Qcplus_0_l (lit 72)) at 1. apply Qcplus_le_mono_r.
    destruct (decide (0 < _)); [by apply Qcdiv_nonneg | reflexivity]. }
  split.
  - assert (Hb : ReliabilityAssessment.backup_duration_hours rel = py_round total 1).
    { unfold ReliabilityAnalyzer.assess_reliability in Hrel.
      rewrite total_backup_hours_ok, Htotal, bind_Ok in Hrel. by injection Hrel as <-. }
    rewrite Hb. assert (Hfix : py_round (lit 72) 1 = lit 72) by qc_compute.
    rewrite <- Hfix at 1. by apply py_round_mono.
  - rewrite Hrip. unfold ReliabilityAnalyzer.reliability_improvement.
    rewrite decide_True; [qc_compute |].
    etrans; [| exact H72]. apply Qclt_le_weak. reflexivity.
Qed.

Lemma generator_gives_flat_95_witness :
  ∃ rel, ReliabilityAnalyzer.assess_reliability scenario scenario_design scenario_load
         = Ok rel ∧
    ReliabilityAssessment.reliability_improvement_percent rel = lit 95.
Proof.
  destruct (generator_gives_flat_95 scenario scenario_design scenario_load)
    as (rel & Hrel & _ & Hrip).
  - vm_compute. discriminate.
  - vm_compute. discriminate.
  - vm_compute. reflexivity.
  - exists rel. auto.
Defined.

(** The scenario of the specification, engine by engine. *)
Example scenario_load_computed : analyze_load scenario = Ok scenario_load.
Proof.
  unfold analyze_load, scenario_load. rewrite pydiv_pos by reflexivity. rewrite bind_Ok.
  unfold mret, result_ret. f_equal. f_equal; qc_compute.
Qed.

Example scenario_design_computed : size_system scenario scenario_load = Ok scenario_design.
Proof.
  destruct (size_system_fields scenario scenario_load)
    as (d & Hd & Hs & Hkw & Hkwh & Hg & Hinv & Htot & Hrf & Hcov).
  rewrite Hd. f_equal. destruct d. unfold scenario_design.
  cbn [MicrogridDesign.solar_pv_kw MicrogridDesign.battery_kw MicrogridDesign.battery_kwh
       MicrogridDesign.generator_kw MicrogridDesign.inverter_kw
       MicrogridDesign.total_generation_kw MicrogridDesign.renewable_fraction
       MicrogridDesign.critical_load_coverage] in *.
  subst. f_equal; qc_compute.
Qed.

(** ** Savings and net present value *)

Lemma annual_savings_closed_form (d : MicrogridDesign.t) :
  nonneg_design d →
  FinancialAnalyzer.annual_savings d =
    MicrogridDesign.solar_pv_kw d * lit 190.3532232
    + MicrogridDesign.battery_kwh d * lit 2.340492
    + MicrogridDesign.battery_kw d * lit 147.024.
Proof.
  intros (_ & Hkw & Hkwh & _).
  unfold FinancialAnalyzer.annual_savings, FinancialAnalyzer.solar_production_kwh,
    FinancialAnalyzer.calculate_arbitrage_savings,
    FinancialAnalyzer.calculate_demand_charge_savings,
    FinancialAnalyzer.electricity_rate, FinancialAnalyzer.export_credit,
    FinancialAnalyzer.summer_on_peak, FinancialAnalyzer.summer_off_peak,
    FinancialAnalyzer.winter_on_peak, FinancialAnalyzer.winter_off_peak,
    FinancialAnalyzer.summer_demand, FinancialAnalyzer.winter_demand,
    FinancialAnalyzer.peak_days_per_month.
  destruct (decide (MicrogridDesign.battery_kwh d ≤ 0)) as [Hz1 | _];
    destruct (decide (MicrogridDesign.battery_kw d ≤ 0)) as [Hz2 | _];
    qc_lra.
Qed.

(** X8.  For a design whose quantities are not negative and at most 10^9
    the guards of the two battery savings change nothing: the annual
    savings are, to within a cent, 190.3532232 per kW of solar, 2.340492
    per kWh and 147.024 per kW of battery. *)
Theorem annual_savings_linear (d : MicrogridDesign.t) :
  nonneg_design d → moderate_design d →
  MicrogridDesign.solar_pv_kw d * lit 190.3532232
    + MicrogridDesign.battery_kwh d * lit 2.340492
    + MicrogridDesign.battery_kw d * lit 147.024 - lit 0.01
    ≤ FinancialAnalyzer.annual_savings d ∧
  FinancialAnalyzer.annual_savings d ≤
    MicrogridDesign.solar_pv_kw d * lit 190.3532232
    + MicrogridDesign.battery_kwh d * lit 2.340492
    + MicrogridDesign.battery_kw d * lit 147.024 + lit 0.01.
Proof.
  intros Hnonneg _. rewrite (annual_savings_closed_form d Hnonneg).
  set (linear := _ + _ + _). split; qc_lra.
Qed.

Lemma annual_savings_linear_witness :
  FinancialAnalyzer.annual_savings scenario_design ≤
    MicrogridDesign.solar_pv_kw scenario_design * lit 190.3532232
    + MicrogridDesign.battery_kwh scenario_design * lit 2.340492
    + MicrogridDesign.battery_kw scenario_design * lit 147.024 + lit 0.01.
Proof.
  apply (annual_savings_linear scenario_design).
  - repeat split; vm_compute; discriminate.
  - repeat split; vm_compute; discriminate.
Defined.

Lemma costs_nonneg (d : MicrogridDesign.t) (c : CostEstimate.t) :
  nonneg_design d → estimate_costs d = Ok c →
  0 ≤ CostEstimate.solar_pv_cost c ∧ 0 ≤ CostEstimate.battery_cost c ∧
  0 ≤ CostEstimate.generator_cost c ∧ 0 ≤ CostEstimate.inverter_cost c ∧
  0 ≤ CostEstimate.bos_cost c ∧ 0 ≤ CostEstimate.installation_cost c ∧
  0 ≤ CostEstimate.total_capital_cost c ∧ 0 ≤ CostEstimate.annual_om_cost c ∧
  0 ≤ CostEstimate.cost_per_kw c.
Proof.
  intros (Hs & _ & Hkwh & Hg & Hinv & _) Hc.
  unfold estimate_costs in Hc. rewrite guarded_div_ret, bind_Ok in Hc.
  injection Hc as <-.
  cbn [CostEstimate.solar_pv_cost CostEstimate.battery_cost CostEstimate.generator_cost
       CostEstimate.inverter_cost CostEstimate.bos_cost CostEstimate.installation_cost
       CostEstimate.total_capital_cost CostEstimate.annual_om_cost CostEstimate.cost_per_kw].
  assert (He : 0 ≤ equipment_cost d).
  { unfold equipment_cost.
    repeat apply Qcplus_nonneg_nonneg; by apply Qcmult_lit_nonneg. }
  fold (equipment_cost d).
  assert (Ht : 0 ≤ equipment_cost d + equipment_cost d * default_costs.bos_percent
                   + equipment_cost d * default_costs.installation_percent).
  { apply Qcplus_nonneg_nonneg; [apply Qcplus_nonneg_nonneg; [done |] |];
      by apply Qcmult_lit_nonneg. }
  repeat split; apply py_round_nonneg; try (by apply Qcmult_lit_nonneg); try done.
  destruct (decide (0 < _)); [by apply Qcdiv_nonneg | reflexivity].
Qed.

(** X9.  For every valid request with a peak demand of at most 10^9 kW
    every figure of the cost estimate is non-negative. *)
Theorem cost_estimate_nonneg (f : FacilityInput.t) :
  FacilityInput.valid f → moderate_peak f →
  ∃ la d c, analyze_load f = Ok la ∧ size_system f la = Ok d ∧ estimate_costs d = Ok c ∧
    0 ≤ CostEstimate.solar_pv_cost c ∧ 0 ≤ CostEstimate.battery_cost c ∧
    0 ≤ CostEstimate.generator_cost c ∧ 0 ≤ CostEstimate.inverter_cost c ∧
    0 ≤ CostEstimate.bos_cost c ∧ 0 ≤ CostEstimate.installation_cost c ∧
    0 ≤ CostEstimate.total_capital_cost c ∧ 0 ≤ CostEstimate.annual_om_cost c ∧
    0 ≤ CostEstimate.cost_per_kw c.
Proof.
  intros Hvalid _.
  destruct (sizing_ok f Hvalid) as (la & d & Hla & Hd & _ & _ & Hnonneg).
  destruct (estimate_costs_fields d) as (c & Hc & _).
  exists la, d, c. do 3 (split; [assumption |]).
  by apply (costs_nonneg d c).
Qed.

Lemma cost_estimate_nonneg_witness :
  ∃ la d c, analyze_load scenario = Ok la ∧ size_system scenario la = Ok d ∧
    estimate_costs d = Ok c ∧ 0 ≤ CostEstimate.total_capital_cost c.
Proof.
  destruct (cost_estimate_nonneg scenario)
    as (la & d & c & Hla & Hd & Hc & _ & _ & _ & _ & _ & _ & Ht & _).
  { apply valid_by_evaluation. vm_compute. reflexivity. }
  { vm_compute. discriminate. }
  exists la, d, c. auto.
Defined.

Lemma Qcinv_nonneg (x : Qc) : 0 ≤ x → 0 ≤ / x.
Proof.
  intros Hx. destruct (decide (x = 0)) as [-> | Hne]; [reflexivity |].
  apply Qclt_le_weak, Qcinv_pos. apply Qcle_lt_or_eq in Hx as [Hx | Hx]; [exact Hx |].
  by symmetry in Hx.
Qed.

Lemma sum_over_years_nonpos (lifetime : nat) (term : nat → Qc) (start : Qc) :
  (∀ year, term year ≤ 0) →
  FinancialAnalyzer.sum_over_years lifetime term start ≤ start.
Proof.
  intros Hterm. unfold FinancialAnalyzer.sum_over_years.
  generalize (seq 1 lifetime). intros years. revert start.
  induction years as [| year years IH]; intros start; [reflexivity |].
  cbn [fold_left]. etrans; [apply IH |].
  rewrite <- (Qcplus_0_r start) at 2. apply Qcplus_le_mono_l, Hterm.
Qed.

(** X10.  For every valid request without solar and without battery
    nothing is saved: the annual savings and the federal tax credit are 0,
    the LCOE is 0, the payback is the sentinel 999 and the net present
    value is negative. *)
Theorem generator_only_saves_nothing (f : FacilityInput.t) :
  FacilityInput.valid f →
  FacilityInput.include_solar f = false →
  FacilityInput.include_battery f = false →
  ∃ la d c fin,
    analyze_load f = Ok la ∧ size_system f la = Ok d ∧ estimate_costs d = Ok c ∧
    FinancialAnalyzer.analyze_financials f d c = Ok fin ∧
    FinancialAnalysis.annual_savings fin = 0 ∧
    FinancialAnalysis.federal_itc fin = 0 ∧
    FinancialAnalysis.lcoe fin = 0 ∧
    FinancialAnalysis.simple_payback_years fin = lit 999 ∧
    FinancialAnalysis.npv fin < 0.
Proof.
  intros Hvalid Hsolar Hbattery.
  destruct (sizing_ok f Hvalid) as (la & d & Hla & Hd & _ & _ & Hnonneg).
  destruct (size_system_fields f la) as (d' & Hd' & Hs & Hkw & Hkwh & _).
  rewrite Hd in Hd'. injection Hd' as <-.
  rewrite Hsolar in Hs. rewrite Hbattery in Hkw, Hkwh.
  destruct (estimate_costs_fields d) as (c & Hc & Hsc & Hbc & _).
  destruct (costs_nonneg d c Hnonneg Hc) as (_ & _ & _ & _ & _ & _ & _ & Hom & _).
  pose proof (net_cost_lower_bound d c Hnonneg Hc) as Hnet.
  rewrite Hs, Qcmult_0_l in Hsc. rewrite Hkwh, Qcmult_0_l in Hbc.
  assert (H0 : py_round 0 2 = 0) by qc_compute.
  rewrite H0 in Hsc, Hbc.
  assert (Hsav : FinancialAnalyzer.annual_savings d = 0).
  { rewrite (annual_savings_closed_form d Hnonneg), Hs, Hkw, Hkwh, !Qcmult_0_l.
    by rewrite !Qcplus_0_l. }
  assert (Hprod : FinancialAnalyzer.solar_production_kwh d = 0).
  { unfold FinancialAnalyzer.solar_production_kwh. by rewrite Hs, !Qcmult_0_l. }
  assert (Hnas : FinancialAnalyzer.net_annual_savings d c ≤ 0).
  { unfold FinancialAnalyzer.net_annual_savings. rewrite Hsav. clear -Hom. qc_lra. }
  assert (Hno : ¬ 0 < (0 : Qc)) by apply (irreflexivity Qclt).
  assert (H04 : py_round 0 4 = 0) by qc_compute.
  exists la, d, c. eexists.
  do 3 (split; [assumption |]).
  split.
  { unfold FinancialAnalyzer.analyze_financials.
    rewrite !guarded_div_ret, !bind_Ok. reflexivity. }
  cbn [FinancialAnalysis.annual_savings FinancialAnalysis.federal_itc
       FinancialAnalysis.lcoe FinancialAnalysis.simple_payback_years FinancialAnalysis.npv].
  split; [by rewrite Hsav |].
  split; [unfold FinancialAnalyzer.federal_itc; by rewrite Hsc, Hbc, Qcplus_0_l, Qcmult_0_l |].
  split; [by rewrite Hprod, Qcmult_0_l, decide_False |].
  split.
  - rewrite decide_False by (by apply Qcle_not_lt). qc_compute.
  - eapply Qcle_lt_trans; [apply py_round_mono, sum_over_years_nonpos |].
    + intros year. unfold Qcdiv.
      rewrite <- (Qcmult_0_l (/ py_pow (1 + FinancialAnalyzer.discount_rate) year)).
      apply Qcmult_le_mono_nonneg_r.
      * apply Qcinv_nonneg, Qcpower_pos. by apply Qclt_le_weak.
      * rewrite <- (Qcmult_0_l (py_pow (1 + FinancialAnalyzer.electricity_escalation) year)).
        apply Qcmult_le_mono_nonneg_r; [| exact Hnas].
        apply Qcpower_pos. by apply Qclt_le_weak.
    + eapply Qcle_lt_trans; [apply (py_round_mono _ (- lit 349.99)) |].
      * clear -Hnet. qc_lra.
      * vm_compute. reflexivity.
Qed.

Lemma generator_only_saves_nothing_witness :
  ∃ la d c fin,
    analyze_load generator_only_facility = Ok la ∧
    size_system generator_only_facility la = Ok d ∧ estimate_costs d = Ok c ∧
    FinancialAnalyzer.analyze_financials generator_only_facility d c = Ok fin ∧
    FinancialAnalysis.simple_payback_years fin = lit 999 ∧
    FinancialAnalysis.npv fin < 0.
Proof.
  destruct (generator_only_saves_nothing generator_only_facility)
    as (la & d & c & fin & Hla & Hd & Hc & Hfin & _ & _ & _ & Hpb & Hnpv);
    [apply valid_by_evaluation; vm_compute; reflexivity | reflexivity | reflexivity |].
  exists la, d, c, fin. auto 10.
Defined.

(** ** Recommendations *)

Lemma elem_of_when {A} (P : Prop) `{Decision P} (x y : A) :
  x ∈ when_true P [y] ↔ P ∧ x = y.
Proof.
  unfold when_true. case_decide.
  - rewrite list_elem_of_singleton. tauto.
  - rewrite elem_of_nil. tauto.
Qed.

Lemma sublist_when {A} (P : Prop) `{Decision P} (y : A) :
  when_true P [y] `sublist_of` [y].
Proof. unfold when_true. case_decide; [reflexivity | apply sublist_nil_l]. Qed.

(** The list built by [generate_recommendations], message by message. *)
Lemma generate_recommendations_Ok (f : FacilityInput.t) (d : MicrogridDesign.t)
    (c : CostEstimate.t) (fin : FinancialAnalysis.t) (rel : ReliabilityAssessment.t)
    (recs : list Recommendation) :
  generate_recommendations f d c fin rel = Ok recs →
  recs =
    when_true (0 < MicrogridDesign.solar_pv_kw d)
      [InstallSolar (MicrogridDesign.solar_pv_kw d)
                    (MicrogridDesign.renewable_fraction d * lit 100)]
    ++ when_true (0 < MicrogridDesign.battery_kwh d)
      [DeployBattery (MicrogridDesign.battery_kwh d)
                     (MicrogridDesign.battery_kwh d / MicrogridDesign.battery_kw d)]
    ++ when_true (0 < MicrogridDesign.generator_kw d)
      [IncludeGenerator (MicrogridDesign.generator_kw d)]
    ++ when_true (FinancialAnalysis.simple_payback_years fin < lit 10)
      [AttractivePayback (FinancialAnalysis.simple_payback_years fin)
                         (FinancialAnalysis.federal_itc fin)]
    ++ when_true (0 < FinancialAnalysis.npv fin) [PositiveNPV (FinancialAnalysis.npv fin)]
    ++ when_true (lit 90 < ReliabilityAssessment.reliability_improvement_percent rel)
      [ReliabilityImprovement (ReliabilityAssessment.reliability_improvement_percent rel)]
    ++ when_true (lit 10000 < ReliabilityAssessment.avoided_outage_cost rel)
      [AvoidedOutageCost (ReliabilityAssessment.avoided_outage_cost rel)]
    ++ [GridFormingInverters].
Proof.
  unfold generate_recommendations, when_true, pydiv.
  destruct (decide (0 < MicrogridDesign.solar_pv_kw d));
    destruct (decide (0 < MicrogridDesign.battery_kwh d));
    try destruct (decide (MicrogridDesign.battery_kw d = 0));
    rewrite ?bind_Ok, ?bind_Raise; try discriminate;
    destruct (decide (0 < MicrogridDesign.generator_kw d));
    destruct (decide (FinancialAnalysis.simple_payback_years fin < lit 10));
    destruct (decide (0 < FinancialAnalysis.npv fin));
    destruct (decide (lit 90 < ReliabilityAssessment.reliability_improvement_percent rel));
    destruct (decide (lit 10000 < ReliabilityAssessment.avoided_outage_cost rel));
    intros Hrecs; injection Hrecs as <-; reflexivity.
Qed.

(** X11.  Whenever [generate_recommendations] returns, its messages are
    messages of [all_recommendations] in the same order, none twice, and
    the last one is the grid-forming inverter advice. *)
Theorem recommendations_in_fixed_order (f : FacilityInput.t) (d : MicrogridDesign.t)
    (c : CostEstimate.t) (fin : FinancialAnalysis.t) (rel : ReliabilityAssessment.t)
    (recs : list Recommendation) :
  generate_recommendations f d c fin rel = Ok recs →
  recs `sublist_of` all_recommendations d fin rel ∧
  ∃ others, recs = others ++ [GridFormingInverters].
Proof.
  intros Hrecs. apply generate_recommendations_Ok in Hrecs. subst recs. split.
  - unfold all_recommendations.
    repeat (apply (sublist_app _ [_]); [apply sublist_when |]). reflexivity.
  - rewrite !app_assoc. eexists. reflexivity.
Qed.

(** X12.  [generate_recommendations] raises [ZeroDivisionError] exactly
    when the battery energy is positive and the battery power is zero, and
    returns in every other case. *)
Theorem generate_recommendations_raises_iff (f : FacilityInput.t) (d : MicrogridDesign.t)
    (c : CostEstimate.t) (fin : FinancialAnalysis.t) (rel : ReliabilityAssessment.t) :
  (generate_recommendations f d c fin rel = Raise ZeroDivisionError
   ↔ 0 < MicrogridDesign.battery_kwh d ∧ MicrogridDesign.battery_kw d = 0) ∧
  ((∃ recs, generate_recommendations f d c fin rel = Ok recs)
   ↔ ¬ (0 < MicrogridDesign.battery_kwh d ∧ MicrogridDesign.battery_kw d = 0)).
Proof.
  destruct (decide (0 < MicrogridDesign.battery_kwh d ∧ MicrogridDesign.battery_kw d = 0))
    as [[Hkwh Hkw] | Hnot].
  - rewrite (generate_recommendations_raises f d c fin rel Hkwh Hkw). split.
    + done.
    + split; [intros [recs Hrecs]; discriminate Hrecs | intros Hn; destruct Hn; done].
  - destruct (generate_recommendations_ok f d c fin rel) as [recs Hrecs].
    { destruct (decide (0 < MicrogridDesign.battery_kwh d)); [right | by left].
      intros Hkw. by apply Hnot. }
    rewrite Hrecs. split.
    + split; [intros Hr; discriminate Hr | intros Hyes; by destruct Hnot].
    + split; [done | intros _; by exists recs].
Qed.

(** X13.  Whenever [generate_recommendations] returns, each message is in
    the list exactly when its threshold is met: solar, battery energy and
    generator above 0, payback below 10 years, NPV above 0, reliability
    improvement above 90, avoided outage cost above 10000. *)
Theorem recommendation_thresholds (f : FacilityInput.t) (d : MicrogridDesign.t)
    (c : CostEstimate.t) (fin : FinancialAnalysis.t) (rel : ReliabilityAssessment.t)
    (recs : list Recommendation) :
  generate_recommendations f d c fin rel = Ok recs →
  (InstallSolar (MicrogridDesign.solar_pv_kw d)
                (MicrogridDesign.renewable_fraction d * lit 100) ∈ recs
   ↔ 0 < MicrogridDesign.solar_pv_kw d) ∧
  (DeployBattery (MicrogridDesign.battery_kwh d)
                 (MicrogridDesign.battery_kwh d / MicrogridDesign.battery_kw d) ∈ recs
   ↔ 0 < MicrogridDesign.battery_kwh d) ∧
  (IncludeGenerator (MicrogridDesign.generator_kw d) ∈ recs
   ↔ 0 < MicrogridDesign.generator_kw d) ∧
  (AttractivePayback (FinancialAnalysis.simple_payback_years fin)
                     (FinancialAnalysis.federal_itc fin) ∈ recs
   ↔ FinancialAnalysis.simple_payback_years fin < lit 10) ∧
  (PositiveNPV (FinancialAnalysis.npv fin) ∈ recs ↔ 0 < FinancialAnalysis.npv fin) ∧
  (ReliabilityImprovement (ReliabilityAssessment.reliability_improvement_percent rel) ∈ recs
   ↔ lit 90 < ReliabilityAssessment.reliability_improvement_percent rel) ∧
  (AvoidedOutageCost (ReliabilityAssessment.avoided_outage_cost rel) ∈ recs
   ↔ lit 10000 < ReliabilityAssessment.avoided_outage_cost rel).
Proof.
  intros Hrecs. apply generate_recommendations_Ok in Hrecs. subst recs.
  repeat split; rewrite ?elem_of_app, ?elem_of_when, ?list_elem_of_singleton;
    intuition (auto; discriminate).
Qed.

Example scenario_costs_computed : estimate_costs scenario_design = Ok scenario_costs.
Proof.
  unfold estimate_costs. rewrite guarded_div_ret, bind_Ok.
  unfold mret, result_ret, scenario_costs. apply (f_equal Ok).
  f_equal; try reflexivity; qc_compute.
Qed.

Example scenario_financial_computed :
  FinancialAnalyzer.analyze_financials scenario scenario_design scenario_costs
  = Ok scenario_financial.
Proof.
  unfold FinancialAnalyzer.analyze_financials. rewrite !guarded_div_ret, !bind_Ok.
  unfold mret, result_ret, scenario_financial. apply (f_equal Ok).
  f_equal; try reflexivity; qc_compute.
Qed.

Example scenario_reliability_computed :
  ReliabilityAnalyzer.assess_reliability scenario scenario_design scenario_load
  = Ok scenario_reliability.
Proof.
  unfold ReliabilityAnalyzer.assess_reliability.
  rewrite total_backup_hours_ok, bind_Ok.
  unfold mret, result_ret, scenario_reliability. apply (f_equal Ok).
  f_equal; try reflexivity; qc_compute.
Qed.

Lemma scenario_recommendations_return :
  ∃ recs, generate_recommendations scenario scenario_design scenario_costs
            scenario_financial scenario_reliability = Ok recs.
Proof.
  apply generate_recommendations_ok. right.
  intros Hkw. apply Qc_eq_this in Hkw. vm_compute in Hkw. discriminate Hkw.
Qed.

Lemma recommendations_in_fixed_order_witness :
  ∃ recs, generate_recommendations scenario scenario_design scenario_costs
            scenario_financial scenario_reliability = Ok recs ∧
    recs `sublist_of`
      all_recommendations scenario_design scenario_financial scenario_reliability.
Proof.
  destruct scenario_recommendations_return as [recs Hrecs].
  exists recs. split; [exact Hrecs |].
  apply (recommendations_in_fixed_order _ _ _ _ _ _ Hrecs).
Defined.

Lemma recommendation_thresholds_witness :
  ∃ recs, generate_recommendations scenario scenario_design scenario_costs
            scenario_financial scenario_reliability = Ok recs ∧
    (PositiveNPV (FinancialAnalysis.npv scenario_financial) ∈ recs
     ↔ 0 < FinancialAnalysis.npv scenario_financial).
Proof.
  destruct scenario_recommendations_return as [recs Hrecs].
  exists recs. split; [exact Hrecs |].
  apply (recommendation_thresholds _ _ _ _ _ _ Hrecs).
Defined.

(** ** The endpoint *)

Lemma analyze_microgrid_cases (f : FacilityInput.t) :
  FacilityInput.valid f →
  ∃ la d, analyze_load f = Ok la ∧ size_system f la = Ok d ∧
    if decide (0 < MicrogridDesign.battery_kwh d ∧ MicrogridDesign.battery_kw d = 0)
    then analyze_microgrid f = Raise (HTTPException 500 ZeroDivisionError)
    else ∃ r, analyze_microgrid f = Ok r ∧
           FullAnalysisResult.facility r = la ∧ FullAnalysisResult.design r = d.
Proof.
  intros Hvalid.
  destruct (sizing_ok f Hvalid) as (la & d & Hla & Hd & _).
  destruct (estimate_costs_fields d) as (c & Hc & _).
  destruct (analyze_financials_fields f d c) as (fin & Hfin & _).
  destruct (assess_reliability_fields f d la) as (total & rel & _ & Hrel & _).
  exists la, d. do 2 (split; [assumption |]).
  case_decide as Hcase.
  - destruct Hcase as [Hkwh Hkw].
    pose proof (generate_recommendations_raises f d c fin rel Hkwh Hkw) as Hraise.
    unfold analyze_microgrid.
    rewrite Hla, bind_Ok. cbv beta. rewrite Hd, bind_Ok. cbv beta.
    rewrite Hc, bind_Ok. cbv beta. rewrite Hfin, bind_Ok. cbv beta.
    rewrite Hrel, bind_Ok. cbv beta. rewrite Hraise, bind_Raise. reflexivity.
  - destruct (generate_recommendations_ok f d c fin rel) as [recs Hrecs].
    { destruct (decide (0 < MicrogridDesign.battery_kwh d)); [right | by left].
      intros Hkw. by apply Hcase. }
    eexists. split; [by eapply analyze_microgrid_ok |]. done.
Qed.

(** X14.  For every valid request the endpoint fails in one way only: it
    answers with status 500 and a division by zero exactly when the sized
    battery has positive energy and zero power, and otherwise returns the
    analysis built from the load analysis and the design. *)
Theorem analyze_microgrid_outcome (f : FacilityInput.t) :
  FacilityInput.valid f →
  ∃ la d, analyze_load f = Ok la ∧ size_system f la = Ok d ∧
    if decide (0 < MicrogridDesign.battery_kwh d ∧ MicrogridDesign.battery_kw d = 0)
    then analyze_microgrid f = Raise (HTTPException 500 ZeroDivisionError)
    else ∃ r, analyze_microgrid f = Ok r ∧
           FullAnalysisResult.facility r = la ∧ FullAnalysisResult.design r = d.
Proof. apply analyze_microgrid_cases. Qed.

Lemma analyze_microgrid_outcome_witness :
  ∃ la d, analyze_load tiny_backup_facility = Ok la ∧
    size_system tiny_backup_facility la = Ok d ∧
    if decide (0 < MicrogridDesign.battery_kwh d ∧ MicrogridDesign.battery_kw d = 0)
    then analyze_microgrid tiny_backup_facility = Raise (HTTPException 500 ZeroDivisionError)
    else ∃ r, analyze_microgrid tiny_backup_facility = Ok r ∧
           FullAnalysisResult.facility r = la ∧ FullAnalysisResult.design r = d.
Proof.
  apply (analyze_microgrid_outcome tiny_backup_facility).
  apply valid_by_evaluation. vm_compute. reflexivity.
Defined.

(** X15.  The endpoint returns for every valid request that excludes the
    battery, and for every valid request whose backup load is at least
    0.05 kW: the battery power is then at least 0.1 kW. *)
Theorem analyze_microgrid_returns (f : FacilityInput.t) (la : LoadAnalysis.t) :
  FacilityInput.valid f →
  analyze_load f = Ok la →
  FacilityInput.include_battery f = false ∨ lit 0.05 ≤ LoadAnalysis.backup_load_kw la →
  ∃ r, analyze_microgrid f = Ok r ∧ FullAnalysisResult.facility r = la.
Proof.
  intros Hvalid Hla Hcond.
  destruct (analyze_microgrid_cases f Hvalid) as (la' & d & Hla' & Hd & Hout).
  rewrite Hla in Hla'. injection Hla' as <-.
  destruct (size_system_fields f la) as (d' & Hd' & _ & Hkw & Hkwh & _).
  rewrite Hd in Hd'. injection Hd' as <-.
  case_decide as Hcase.
  - exfalso. destruct Hcase as [Hpos Hzero]. destruct Hcond as [Hflag | Hbackup].
    + rewrite Hflag in Hkwh. rewrite Hkwh in Hpos. by apply (irreflexivity Qclt) in Hpos.
    + destruct (FacilityInput.include_battery f).
      * assert (Hmin : py_round (lit 0.05 * lit 1.1) 1 ≤ MicrogridDesign.battery_kw d).
        { rewrite Hkw. apply py_round_mono. clear -Hbackup. qc_lra. }
        assert (Hval : py_round (lit 0.05 * lit 1.1) 1 = lit 0.1) by qc_compute.
        rewrite Hval, Hzero in Hmin. vm_compute in Hmin. by apply Hmin.
      * rewrite Hkwh in Hpos. by apply (irreflexivity Qclt) in Hpos.
  - destruct Hout as (r & Hr & Hfac & _). by exists r.
Qed.

Lemma analyze_microgrid_returns_witness :
  ∃ r, analyze_microgrid scenario = Ok r ∧ FullAnalysisResult.facility r = scenario_load.
Proof.
  apply (analyze_microgrid_returns scenario scenario_load).
  - apply valid_by_evaluation. vm_compute. reflexivity.
  - exact scenario_load_computed.
  - right. vm_compute. discriminate.
Defined.

(** ** Startup data *)

Section load_data_properties.

Context {DataFrame : Type} (read_csv : string → option DataFrame).

Lemma load_files_other (files : list (string * string)) (data : gmap string DataFrame)
    (key : string) :
  key ∉ files.*1 → load_files read_csv files data !! key = data !! key.
Proof.
  revert data. induction files as [| [key0 name0] rest IH]; intros data Hnotin;
    [reflexivity |].
  cbn [load_files]. rewrite fmap_cons, not_elem_of_cons in Hnotin.
  destruct Hnotin as [Hne Hrest]. cbn [fst] in Hne.
  destruct (read_csv name0); [| reflexivity].
  rewrite IH by exact Hrest. by rewrite lookup_insert_ne.
Qed.

Lemma load_files_lookup (files : list (string * string)) (data : gmap string DataFrame)
    (i : nat) (key name : string) (table : DataFrame) :
  NoDup files.*1 →
  (∀ key', key' ∈ files.*1 → data !! key' = None) →
  files !! i = Some (key, name) →
  load_files read_csv files data !! key = Some table
  ↔ read_csv name = Some table ∧
    ∀ j key' name', (j < i)%nat → files !! j = Some (key', name') →
      is_Some (read_csv name').
Proof.
  revert i data. induction files as [| [key0 name0] rest IH]; intros i data Hnodup Hfresh Hi;
    [done |].
  rewrite fmap_cons in Hnodup. apply list.NoDup_cons in Hnodup as [Hnotin Hnodup].
  cbn [fst] in Hnotin. cbn [load_files].
  assert (Hfresh0 : data !! key0 = None) by (apply Hfresh; rewrite fmap_cons; left).
  destruct i as [| i].
  - injection Hi as -> ->.
    destruct (read_csv name) as [table0 |] eqn:Hread.
    + rewrite load_files_other, lookup_insert_eq by exact Hnotin.
      split; [intros Heq; split; [exact Heq | intros j ? ? Hj; lia] | by intros [Heq _]].
    + rewrite Hfresh0. split; [done | by intros [Heq _]].
  - cbn in Hi.
    assert (Hin : key ∈ rest.*1).
    { apply list_elem_of_fmap. exists (key, name). split; [done |].
      by eapply list_elem_of_lookup_2. }
    destruct (read_csv name0) as [table0 |] eqn:Hread.
    + rewrite (IH i (<[key0 := table0]> data) Hnodup); [| | exact Hi].
      * split; intros [Heq Hbefore]; (split; [exact Heq |]).
        -- intros [| j] key' name' Hj Hlookup.
           ++ injection Hlookup as <- <-. by rewrite Hread.
           ++ apply (Hbefore j key' name'); [lia | exact Hlookup].
        -- intros j key' name' Hj Hlookup.
           apply (Hbefore (S j) key' name'); [lia | exact Hlookup].
      * intros key' Hkey'. rewrite lookup_insert_ne by (intros ->; done).
        apply Hfresh. rewrite fmap_cons. by right.
    + rewrite (Hfresh key) by (rewrite fmap_cons; by right).
      split; [done |]. intros [_ Hbefore].
      destruct (Hbefore 0%nat key0 name0) as [table0 Htable0]; [lia | done |].
      by rewrite Hread in Htable0.
Qed.

(** X17.  After startup a table is in [DATA] exactly when its file and
    every file listed before it could be read; its value is then what
    [read_csv] returned for its file. *)
Theorem load_data_lookup (i : nat) (key name : string) (table : DataFrame) :
  data_files !! i = Some (key, name) →
  load_data read_csv !! key = Some table
  ↔ read_csv name = Some table ∧
    ∀ j key' name', (j < i)%nat → data_files !! j = Some (key', name') →
      is_Some (read_csv name').
Proof.
  intros Hi. apply load_files_lookup; [| | exact Hi].
  - apply (bool_decide_unpack _). vm_compute. exact I.
  - intros key' _. apply lookup_empty.
Qed.

(** X18.  [health_check] reports [data_loaded] exactly when the first file,
    the component costs, could be read, whatever happened to the other
    seven. *)
Theorem health_check_first_file :
  health_check read_csv = true ↔ is_Some (read_csv "component_costs_collected.csv").
Proof.
  unfold health_check. rewrite bool_decide_eq_true.
  destruct (read_csv "component_costs_collected.csv") as [table |] eqn:Hread.
  - assert (Hlookup : load_data read_csv !! "component_costs" = Some table).
    { apply (load_files_lookup data_files ∅ 0 "component_costs"
               "component_costs_collected.csv").
      - apply (bool_decide_unpack _). vm_compute. exact I.
      - intros key' _. apply lookup_empty.
      - reflexivity.
      - split; [exact Hread | intros j ? ? Hj; lia]. }
    split; [by eexists |]. intros _.
    destruct (decide (size (load_data read_csv) = 0%nat)) as [Hzero | Hpos]; [| lia].
    apply map_size_empty_iff in Hzero. rewrite Hzero, lookup_empty in Hlookup.
    discriminate Hlookup.
  - unfold load_data, data_files. cbn [load_files]. rewrite Hread, map_size_empty.
    split; [lia | by intros [? ?]].
Qed.

End load_data_properties.

Lemma load_data_lookup_witness :
  load_data (λ _, Some tt) !! "utility_rates" = Some tt
  ↔ (λ _ : string, Some tt) "utility_rates.csv" = Some tt ∧
    ∀ j key' name', (j < 3)%nat → data_files !! j = Some (key', name') →
      is_Some ((λ _ : string, Some tt) name').
Proof.
  apply (load_data_lookup (λ _, Some tt) 3 "utility_rates" "utility_rates.csv" tt).
  reflexivity.
Defined.

(** ** Ranges of the reported figures *)

Lemma cost_per_kwh_values (f : FacilityInput.t) :
  ReliabilityAnalyzer.cost_per_kwh f = lit 25 ∨ ReliabilityAnalyzer.cost_per_kwh f = lit 15 ∨
  ReliabilityAnalyzer.cost_per_kwh f = lit 5 ∨ ReliabilityAnalyzer.cost_per_kwh f = lit 100.
Proof.
  unfold ReliabilityAnalyzer.cost_per_kwh, ReliabilityAnalyzer.interruption_costs.
  destruct (_ !! _) as [rate |] eqn:Hlookup; [| by left]. cbn [default from_option id].
  rewrite !lookup_insert_Some, lookup_empty in Hlookup.
  destruct Hlookup as [[_ <-] | [_ [[_ <-] | [_ [[_ <-] | [_ [[_ <-] | [_ Hnone]]]]]]]];
    auto. discriminate Hnone.
Qed.

Lemma cost_per_kwh_pos (f : FacilityInput.t) : 0 < ReliabilityAnalyzer.cost_per_kwh f.
Proof.
  destruct (cost_per_kwh_values f) as [-> | [-> | [-> | ->]]]; reflexivity.
Qed.

Lemma coverage_at_most_one (f : FacilityInput.t) (la : LoadAnalysis.t)
    (d : MicrogridDesign.t) :
  size_system f la = Ok d → MicrogridDesign.critical_load_coverage d ≤ 1.
Proof.
  intros Hd.
  destruct (size_system_fields f la) as (d' & Hd' & _ & _ & _ & _ & _ & _ & _ & Hcov).
  rewrite Hd in Hd'. injection Hd' as <-.
  assert (H1 : py_round 1 3 = 1) by qc_compute.
  rewrite Hcov. trans (py_round 1 3); [| by rewrite H1]. apply py_round_mono.
  destruct (decide (0 < _)); [apply py_min_le_l | reflexivity].
Qed.

(** X16.  For every valid request with a peak demand of at most 10^9 kW
    the reliability assessment reports a non-negative backup duration, a
    critical-load coverage between 0 and 100 percent and a non-negative
    avoided outage cost. *)
Theorem reliability_assessment_ranges (f : FacilityInput.t) :
  FacilityInput.valid f → moderate_peak f →
  ∃ la d rel, analyze_load f = Ok la ∧ size_system f la = Ok d ∧
    ReliabilityAnalyzer.assess_reliability f d la = Ok rel ∧
    0 ≤ ReliabilityAssessment.backup_duration_hours rel ∧
    0 ≤ ReliabilityAssessment.critical_load_coverage_percent rel ∧
    ReliabilityAssessment.critical_load_coverage_percent rel ≤ lit 100 ∧
    0 ≤ ReliabilityAssessment.avoided_outage_cost rel.
Proof.
  intros Hvalid _.
  destruct (sizing_ok f Hvalid) as (la & d & Hla & Hd & Hcrit & Hbackup & Hnonneg).
  pose proof (coverage_at_most_one f la d Hd) as Hcov1.
  assert (Hcov0 : 0 ≤ MicrogridDesign.critical_load_coverage d) by apply Hnonneg.
  exists la, d. eexists. do 2 (split; [assumption |]).
  split.
  { unfold ReliabilityAnalyzer.assess_reliability.
    rewrite total_backup_hours_ok, bind_Ok. reflexivity. }
  cbn [ReliabilityAssessment.backup_duration_hours
       ReliabilityAssessment.critical_load_coverage_percent
       ReliabilityAssessment.avoided_outage_cost].
  assert (Hpct : 0 ≤ MicrogridDesign.critical_load_coverage d * lit 100)
    by (by apply Qcmult_lit_nonneg).
  split; [| split; [| split]].
  - apply py_round_nonneg, Qcplus_nonneg_nonneg; [| apply generator_hours_nonneg].
    destruct (decide (0 < _)); [| reflexivity].
    apply Qcdiv_nonneg; [apply Hnonneg | done].
  - by apply py_round_nonneg.
  - assert (Hfix : py_round (lit 100) 1 = lit 100) by qc_compute.
    trans (py_round (lit 100) 1); [| by rewrite Hfix].
    apply py_round_mono. clear -Hcov1. qc_lra.
  - apply py_round_nonneg. apply Qcmult_nonneg_nonneg.
    + apply Qcmult_nonneg_nonneg; [| apply Qclt_le_weak, cost_per_kwh_pos].
      apply Qcmult_nonneg_nonneg; [done | by apply Qclt_le_weak].
    + by apply Qcdiv_lit_nonneg.
Qed.

Lemma reliability_assessment_ranges_witness :
  ∃ la d rel, analyze_load scenario = Ok la ∧ size_system scenario la = Ok d ∧
    ReliabilityAnalyzer.assess_reliability scenario d la = Ok rel ∧
    0 ≤ ReliabilityAssessment.avoided_outage_cost rel.
Proof.
  destruct (reliability_assessment_ranges scenario)
    as (la & d & rel & Hla & Hd & Hrel & _ & _ & _ & Hcost).
  { apply valid_by_evaluation. vm_compute. reflexivity. }
  { vm_compute. discriminate. }
  exists la, d, rel. auto.
Defined.

Lemma chain_net_cost_positive (f : FacilityInput.t) :
  FacilityInput.valid f →
  ∃ la d c, analyze_load f = Ok la ∧ size_system f la = Ok d ∧ estimate_costs d = Ok c ∧
    0 < FinancialAnalyzer.net_cost c.
Proof.
  intros Hvalid.
  destruct (sizing_ok f Hvalid) as (la & d & Hla & Hd & _ & _ & Hnonneg).
  destruct (estimate_costs_fields d) as (c & Hc & _).
  exists la, d, c. do 3 (split; [assumption |]).
  eapply Qclt_le_trans; [| exact (net_cost_lower_bound d c Hnonneg Hc)]. reflexivity.
Qed.

(** X19.  For every valid request the reported payback is never negative:
    it is the sentinel 999 or the quotient of a positive net cost by
    positive net savings, rounded. *)
Theorem simple_payback_nonneg (f : FacilityInput.t) :
  FacilityInput.valid f →
  ∃ la d c fin,
    analyze_load f = Ok la ∧ size_system f la = Ok d ∧ estimate_costs d = Ok c ∧
    FinancialAnalyzer.analyze_financials f d c = Ok fin ∧
    0 ≤ FinancialAnalysis.simple_payback_years fin.
Proof.
  intros Hvalid.
  destruct (chain_net_cost_positive f Hvalid)
    as (la & d & c & Hla & Hd & Hc & Hpos).
  destruct (analyze_financials_fields f d c) as (fin & Hfin & Hpayback & _).
  exists la, d, c, fin. do 4 (split; [assumption |]).
  rewrite Hpayback. apply py_round_nonneg.
  destruct (decide (0 < _)); [| by apply Qclt_le_weak].
  apply Qcdiv_nonneg; [by apply Qclt_le_weak | done].
Qed.

Lemma simple_payback_nonneg_witness :
  ∃ la d c fin,
    analyze_load scenario = Ok la ∧ size_system scenario la = Ok d ∧
    estimate_costs d = Ok c ∧
    FinancialAnalyzer.analyze_financials scenario d c = Ok fin ∧
    0 ≤ FinancialAnalysis.simple_payback_years fin.
Proof.
  apply (simple_payback_nonneg scenario).
  apply valid_by_evaluation. vm_compute. reflexivity.
Defined.

(** ** A decimal tie on doubles *)

(** The total capital cost of the scenario is 3269488.725 before it is
    rounded: a tie on rationals, which goes to the even cent, 3269488.72.
    The doubles carry 3269488.7250000001 at that point, and the estimate
    reports 3269488.73. *)
Lemma scenario_total_capital_cost_tie :
  (∃ c, estimate_costs scenario_design = Ok c ∧
     CostEstimate.total_capital_cost c = lit 3269488.72) ∧
  ∃ la d c,
    Double.analyze_load (to_double scenario) = Ok la ∧
    Double.size_system (to_double scenario) la = Ok d ∧
    Double.estimate_costs d = Ok c ∧
    Double.total_capital_cost c = Double.lit 3269488.73.
Proof.
  split.
  - exists scenario_costs. split; [apply scenario_costs_computed | reflexivity].
  - do 3 eexists. do 3 (split; [vm_compute; reflexivity |]).
    vm_compute. reflexivity.
Qed.

(** ** The range, run on doubles *)

(** The theorems above that carry [moderate_peak] are proved on rationals.
    On the 4608 requests of [grid], which are valid and span the range,
    the run on doubles returns finite figures that meet the same bounds. *)
Lemma forallb_Forall {A} (p : A → bool) (l : list A) :
  forallb p l = true → Forall (λ x, p x = true) l.
Proof.
  induction l as [| x l IH]; intros Hall; [constructor |].
  apply andb_prop in Hall as [Hx Hl]. constructor; [exact Hx | by apply IH].
Qed.

Lemma grid_within_bounds :
  Forall (λ f, FacilityInput.valid f ∧ moderate_peak f ∧
               Double.within_bounds (to_double f) = true) grid.
Proof.
  assert (Hall : forallb (λ f, bool_decide (FacilityInput.valid f)
                               && bool_decide (moderate_peak f)
                               && Double.within_bounds (to_double f)) grid = true)
    by (vm_compute; reflexivity).
  apply forallb_Forall in Hall. eapply Forall_impl; [| exact Hall].
  intros f Hf. cbv beta in Hf.
  apply andb_prop in Hf as [Hf Hbounds]. apply andb_prop in Hf as [Hvalid Hpeak].
  split; [eapply bool_decide_eq_true_1; exact Hvalid |].
  split; [eapply bool_decide_eq_true_1; exact Hpeak | exact Hbounds].
Qed.
